(** * pymacaron-gcp: the packaging script [setup.py]

    A shallow embedding of the module-level code of [setup.py] and the
    properties of its version resolution, its effect on [sys.argv] and
    the keyword arguments it hands to [setuptools.setup].

    Python [str] values are modelled by [string]; every [ascii] stands
    for one code point below 256.  The module globals the script
    mutates ([sys.argv], [version]) and its standard output are threaded
    through an explicit state; exceptions are an explicit outcome that
    keeps the state reached.  The two files the script looks at
    (PKG-INFO and README.md next to it) and the result of
    [glob("bin/*")] are the inputs besides the command line.  The model
    ends where [setup] is entered: what setuptools does with the
    keyword arguments is outside of it. *)

From Stdlib Require Import String Ascii List Bool Arith Lia.
Import ListNotations.
Open Scope string_scope.
Open Scope list_scope.

(** ** Python string primitives used by the script *)

Module PyStr.

(** [str.isspace] on a single code point below 256: TAB..CR,
    FS..US, SPACE, NEL and NBSP. *)
Definition isspace (c : ascii) : bool :=
  let n := nat_of_ascii c in
  ((9 <=? n)%nat && (n <=? 13)%nat) || ((28 <=? n)%nat && (n <=? 32)%nat)
  || (n =? 133)%nat || (n =? 160)%nat.

Fixpoint lstrip (s : string) : string :=
  match s with
  | String c s' => if isspace c then lstrip s' else s
  | EmptyString => EmptyString
  end.

Fixpoint rstrip (s : string) : string :=
  match s with
  | EmptyString => EmptyString
  | String c s' =>
      match rstrip s' with
      | EmptyString => if isspace c then EmptyString else String c EmptyString
      | r => String c r
      end
  end.

(** [s.strip()] *)
Definition strip (s : string) : string := rstrip (lstrip s).

(** [sub in s] *)
Fixpoint contains (sub s : string) : bool :=
  prefix sub s ||
  match s with
  | EmptyString => false
  | String _ s' => contains sub s'
  end.

(** [s.split(sep)] for a one-character separator: consecutive
    separators delimit empty pieces, and the empty string splits into
    one empty piece. *)
Fixpoint split (sep : ascii) (s : string) : list string :=
  match s with
  | EmptyString => [EmptyString]
  | String c s' =>
      if Ascii.eqb c sep then EmptyString :: split sep s'
      else match split sep s' with
           | h :: t => String c h :: t
           | [] => [String c EmptyString]
           end
  end.

Definition newline : ascii := ascii_of_nat 10.

(** [f.readlines()] on the text of a file: the lines, each keeping
    its terminating newline. *)
Fixpoint readlines (s : string) : list string :=
  match s with
  | EmptyString => []
  | String c s' =>
      if Ascii.eqb c newline then String c EmptyString :: readlines s'
      else match readlines s' with
           | h :: t => String c h :: t
           | [] => [String c EmptyString]
           end
  end.

(** [x in l] for a list of strings *)
Definition mem (x : string) (l : list string) : bool :=
  existsb (String.eqb x) l.

End PyStr.

(** ** The world the script runs in *)

(** A file of the script's directory as the script can observe it. *)
Inductive file : Type :=
| NoFile                      (* nothing, or not a regular file *)
| Unreadable                  (* a regular file that [open] refuses *)
| Undecodable                 (* a regular file whose bytes do not decode *)
| Text (contents : string).   (* a regular file and its text, as text mode
                                 delivers it: decoded, newlines translated *)

Definition isfile (f : file) : bool :=
  match f with NoFile => false | _ => true end.

Record World : Type := mkWorld {
  pkg_info : file;            (* <dir of setup.py>/PKG-INFO *)
  readme : file;              (* <dir of setup.py>/README.md *)
  bin_glob : list string      (* glob("bin/*") *)
}.

Inductive exn : Type :=
| IndexError
| ValueError
| OSError
| UnicodeDecodeError
| Exception (msg : string).

(** The mutable part: [sys.argv], the global [version] and what has
    been printed so far. *)
Record State : Type := mkState {
  sys_argv : list string;
  version : option string;
  stdout : list string
}.

Inductive outcome (A : Type) : Type :=
| Returns (a : A) (s : State)
| Raises (e : exn) (s : State).
Arguments Returns {A} a s.
Arguments Raises {A} e s.

Definition M (A : Type) : Type := State -> outcome A.

Definition ret {A} (a : A) : M A := fun s => Returns a s.

Definition bind {A B} (m : M A) (k : A -> M B) : M B :=
  fun s => match m s with
           | Returns a s' => k a s'
           | Raises e s' => Raises e s'
           end.

Definition raise {A} (e : exn) : M A := fun s => Raises e s.

Notation "x <- m ;; k" := (bind m (fun x => k))
  (at level 61, m at next level, right associativity).
Notation "m ;; k" := (bind m (fun _ => k))
  (at level 61, right associativity).

Definition get_argv : M (list string) := fun s => Returns (sys_argv s) s.
Definition get_version : M (option string) := fun s => Returns (version s) s.

Definition set_version (v : option string) : M unit :=
  fun s => Returns tt (mkState (sys_argv s) v (stdout s)).

Definition print (line : string) : M unit :=
  fun s => Returns tt (mkState (sys_argv s) (version s) (stdout s ++ [line])).

(** [sys.argv[-k]] for [k >= 1]: the k-th element from the end. *)
Definition argv_from_end (k : nat) : M string :=
  fun s =>
    match nth_error (rev (sys_argv s)) (k - 1) with
    | Some x => Returns x s
    | None => Raises IndexError s
    end.

(** [sys.argv.pop()] *)
Definition argv_pop : M string :=
  fun s =>
    match rev (sys_argv s) with
    | x :: r => Returns x (mkState (rev r) (version s) (stdout s))
    | [] => Raises IndexError s
    end.

(** [open(path).read()] and friends *)
Definition open_read (f : file) : M string :=
  match f with
  | Text t => ret t
  | Undecodable => raise UnicodeDecodeError
  | NoFile | Unreadable => raise OSError
  end.

(** Truth value of [version]: [None] and the empty string are false. *)
Definition truthy (v : option string) : bool :=
  match v with
  | None => false
  | Some EmptyString => false
  | Some _ => true
  end.

(** ["%s" % version] *)
Definition str_of (v : option string) : string :=
  match v with
  | None => "None"
  | Some s => s
  end.

(** ** The script, block by block *)

Definition msg_version : string := "Please set a version with --version x.y.z".
Definition msg_warning : string := "WARNING: cannot set version in custom setup.py".

(** Lines 9-12. *)
Definition cmdline_version : M unit :=
  a2 <- argv_from_end 2 ;;
  argv <- get_argv ;;
  if String.eqb a2 "--version" && PyStr.mem "sdist" argv then
    v <- argv_from_end 1 ;;
    set_version (Some v) ;;
    argv_pop ;;
    argv_pop ;;
    ret tt
  else ret tt.

(** Lines 14-15. *)
Definition sdist_guard : M unit :=
  argv <- get_argv ;;
  v <- get_version ;;
  if PyStr.mem "sdist" argv && negb (truthy v) then
    raise (Exception msg_version)
  else ret tt.

(** Lines 24-26: the loop over the lines of PKG-INFO. *)
Fixpoint pkg_info_loop (lines : list string) : M unit :=
  match lines with
  | [] => ret tt
  | l :: rest =>
      (if PyStr.contains "Version" l then
         match PyStr.split " " l with
         | [_; v] => set_version (Some v)
         | _ => raise ValueError
         end
       else ret tt) ;;
      pkg_info_loop rest
  end.

(** Lines 17-28. *)
Definition fallback_version (w : World) : M unit :=
  v <- get_version ;;
  if negb (truthy v) then
    argv <- get_argv ;;
    if PyStr.mem "sdist" argv then
      raise (Exception msg_version)
    else
      if isfile (pkg_info w) then
        t <- open_read (pkg_info w) ;;
        pkg_info_loop (PyStr.readlines t)
      else
        print msg_warning
  else ret tt.

(** Lines 7-28: everything that decides [version]. *)
Definition resolve_version (w : World) : M unit :=
  cmdline_version ;;
  sdist_guard ;;
  fallback_version w.

(** Lines 30-32. *)
Definition strip_and_print : M unit :=
  v <- get_version ;;
  (if truthy v then set_version (option_map PyStr.strip v) else ret tt) ;;
  v' <- get_version ;;
  print ("version: " ++ str_of v')%string.

(** The keyword arguments of the call to [setup]. *)
Record SetupCall : Type := mkSetupCall {
  kw_name : string;
  kw_version : option string;
  kw_url : string;
  kw_license : string;
  kw_author : string;
  kw_author_email : string;
  kw_description : string;
  kw_long_description : string;
  kw_long_description_content_type : string;
  kw_install_requires : list string;
  kw_tests_require : list string;
  kw_test_suite : string;
  kw_scripts : list string;
  kw_zip_safe : bool;
  kw_platforms : string;
  kw_classifiers : list string
}.

Definition classifiers : list string :=
  [ "Environment :: Web Environment";
    "Intended Audience :: Developers";
    "License :: OSI Approved :: BSD License";
    "Operating System :: OS Independent";
    "Programming Language :: Python";
    "Topic :: Internet :: WWW/HTTP :: Dynamic Content";
    "Topic :: Software Development :: Libraries :: Python Modules" ].

(** Lines 39-69: the keyword arguments, given the value of [version]
    and the text read from README.md. *)
Definition kwargs (w : World) (v : option string) (long_description : string)
  : SetupCall :=
  mkSetupCall
    "pymacaron-gcp"
    v
    "https://github.com/pymacaron/pymacaron-gcp"
    "BSD"
    "Erwan Lemonnier"
    "erwan@lemonnier.se"
    "PyMacaron deployment pipelines towards Google Kubernetes Engine (GKE) and Cloud Run (GCR)"
    long_description
    "text/markdown"
    []
    ["nose"; "mock"; "pep8"]
    "nose.collector"
    (bin_glob w)
    false
    "any"
    classifiers.

Definition setup_call (w : World) (long_description : string) : M SetupCall :=
  v <- get_version ;;
  ret (kwargs w v long_description).

(** The whole module body, up to the point where [setup] is entered. *)
Definition script (w : World) : M SetupCall :=
  resolve_version w ;;
  strip_and_print ;;
  long_description <- open_read (readme w) ;;
  setup_call w long_description.

(** Running the script from a fresh interpreter with the given
    command line. *)
Definition initial (argv : list string) : State := mkState argv None [].

Definition run (w : World) (argv : list string) : outcome SetupCall :=
  script w (initial argv).

(** ** Vocabulary of the statements *)

Definition matching (lines : list string) : list string :=
  filter (PyStr.contains "Version") lines.

Definition two_tokens (l : string) : Prop :=
  length (PyStr.split " " l) = 2.

Definition second_token (l : string) : option string :=
  nth_error (PyStr.split " " l) 1.

Definition final {A} (o : outcome A) : State :=
  match o with
  | Returns _ s => s
  | Raises _ s => s
  end.

(** Lines 30-32 as a state update. *)
Definition stripped (s : State) : State :=
  mkState (sys_argv s)
          (option_map PyStr.strip (version s))
          (stdout s ++ [("version: " ++ str_of (option_map PyStr.strip (version s)))%string]).

(** The number of occurrences of a character. *)
Fixpoint count_char (c : ascii) (s : string) : nat :=
  match s with
  | EmptyString => 0
  | String a s' => (if Ascii.eqb a c then 1 else 0) + count_char c s'
  end.

(** Every character is white space. *)
Fixpoint all_space (s : string) : bool :=
  match s with
  | EmptyString => true
  | String c s' => PyStr.isspace c && all_space s'
  end.

Definition starts_with_space (s : string) : bool :=
  match s with
  | EmptyString => false
  | String c _ => PyStr.isspace c
  end.

Fixpoint ends_with_space (s : string) : bool :=
  match s with
  | EmptyString => false
  | String c EmptyString => PyStr.isspace c
  | String _ s' => ends_with_space s'
  end.

(** ** Sample worlds and command lines *)

Definition nl : string := String PyStr.newline "".

Definition pkg_info_sample : string :=
  ("Metadata-Version: 2.1" ++ nl ++ "Name: pymacaron-gcp" ++ nl ++
   "Version: 1.2.3" ++ nl)%string.

Definition world_sample : World :=
  mkWorld (Text pkg_info_sample) (Text "# pymacaron-gcp") ["bin/deploy"].

Definition argv_sdist : list string :=
  ["setup.py"; "sdist"; "--version"; " 1.0.4 "].

Definition argv_install : list string := ["setup.py"; "install"].

Definition world_no_version_line : World :=
  mkWorld (Text ("Name: pymacaron-gcp" ++ nl)%string) (Text "# pymacaron-gcp") [].

Definition world_no_readme : World :=
  mkWorld (Text pkg_info_sample) NoFile [].

(** * The deployment pipeline described by the specification

    [setup.py] only packages the project; the orchestrator that the
    specification describes (build stage resolver, pipeline state
    machine, retry policy, rollback) is not part of the sources at
    hand.  The module below is that design written out as executable
    definitions, so that its stated properties can be checked against
    the design itself. *)

Module Pipeline.

(** Modelled from the spec: the states of the pipeline state machine
    (section 4.1); the state machine itself is missing from the sources. *)
Inductive state : Type :=
| Pending | Building | Pushing | Deploying | Verifying
| Done | Failed | RolledBack.

(** Modelled from the spec: the error taxonomy of sections 4.2 and 7. *)
Inductive error : Type :=
| InvalidSpec | AuthError | QuotaExceeded | Timeout | RollbackFailed.

(** Modelled from the spec: QuotaExceeded and Timeout are retryable,
    InvalidSpec, AuthError and RollbackFailed are fatal (section 7). *)
Definition retryable (e : error) : bool :=
  match e with
  | QuotaExceeded | Timeout => true
  | InvalidSpec | AuthError | RollbackFailed => false
  end.

(** Modelled from the spec: why a run is in Failed: an error, a failed
    health check (section 4.1) or a cancellation (section 5). *)
Inductive reason : Type :=
| Error (e : error)
| HealthCheckFailed
| Cancelled.

(** Modelled from the spec: what can happen to a run: it is started,
    the remote call of the current state succeeds or fails with an
    error, the health check reports an unhealthy revision, or the run
    is cancelled (sections 4.1 and 5). *)
Inductive event : Type :=
| Start
| Succeeded
| Errored (e : error)
| Unhealthy
| Cancel.

(** Modelled from the spec: the backends of section 3. *)
Inductive backend : Type := GKE | CloudRun.

(** Modelled from the spec: the ServiceSpec of section 3; a field that
    was not given is [None]. *)
Record ServiceSpec : Type := mkServiceSpec {
  name : option string;
  image : option string;
  target : option backend;
  limits : option (list (string * nat));
  env : option (list (string * string))
}.

(** Modelled from the spec: the fields of a ServiceSpec (section 3). *)
Inductive field : Type := FName | FImage | FTarget | FLimits | FEnv.

(** Modelled from the spec: the five fields of section 3, in its order. *)
Definition all_fields : list field := [FName; FImage; FTarget; FLimits; FEnv].

(** Modelled from the spec: whether a ServiceSpec gives a field. *)
Definition present (spec : ServiceSpec) (f : field) : bool :=
  match f with
  | FName => match name spec with Some _ => true | None => false end
  | FImage => match image spec with Some _ => true | None => false end
  | FTarget => match target spec with Some _ => true | None => false end
  | FLimits => match limits spec with Some _ => true | None => false end
  | FEnv => match env spec with Some _ => true | None => false end
  end.

(** Modelled from the spec: the build steps of section 2 (compile,
    containerize, tag). *)
Inductive build_step : Type := Compile | Containerize | Tag.

(** Modelled from the spec: the remote operations a run performs, one
    per attempt of a state (sections 4.1, 4.2 and 4.4). *)
Inductive call : Type := CBuild | CPush | CDeploy | CHealthcheck | CRollback.

(** Modelled from the spec: the configuration of a run: the maximum
    number of retries and whether rollback is configured (section 4.1). *)
Record Config : Type := mkConfig {
  max_retries : nat;
  rollback : bool
}.

(** Modelled from the spec: the default maximum of 3 retries
    (section 4.1). *)
Definition default_config : Config := mkConfig 3 true.

(** Modelled from the spec: the PipelineRun of section 3, without its
    id and timestamps: the current state, the retries made in it, the
    states left so far with the retries each one took, and the reason
    of a failure. *)
Record PipelineRun : Type := mkRun {
  current : state;
  retries : nat;
  history : list (state * nat);
  failure : option reason
}.

(** Modelled from the spec: a run starts in Pending (section 4.1). *)
Definition new_run : PipelineRun := mkRun Pending 0 [] None.

(** Modelled from the spec: a transition to another state, recorded in
    the history; the retry count starts again (section 3). *)
Definition goto (r : PipelineRun) (s : state) : PipelineRun :=
  mkRun s 0 (history r ++ [(current r, retries r)]) (failure r).

(** Modelled from the spec: the transition to Failed, with its reason
    (sections 4.1, 5 and 7). *)
Definition fail (r : PipelineRun) (why : reason) : PipelineRun :=
  mkRun Failed 0 (history r ++ [(current r, retries r)]) (Some why).

(** Modelled from the spec: one more attempt in the same state
    (section 4.1). *)
Definition retry (r : PipelineRun) : PipelineRun :=
  mkRun (current r) (S (retries r)) (history r) (failure r).

(** Modelled from the spec: a failed attempt of a stage (sections 4.1
    and 7): a retryable error is retried while the retries made are
    below the maximum and sends the run to Failed once they are not;
    a fatal error sends it to Failed at once. *)
Definition on_error (cfg : Config) (r : PipelineRun) (e : error) : PipelineRun :=
  if retryable e then
    if (retries r <? max_retries cfg)%nat then retry r else fail r (Error e)
  else fail r (Error e).

(** Modelled from the spec: Failed is left by a rollback only when
    rollback is configured and has not itself failed (sections 4.1 and
    4.4). *)
Definition rollback_pending (cfg : Config) (r : PipelineRun) : bool :=
  rollback cfg &&
  match failure r with
  | Some (Error RollbackFailed) => false
  | _ => true
  end.

(** Modelled from the spec: the transitions of section 4.1, the
    cancellation of section 5 and the rollback of section 4.4.  An
    event that has no transition in the current state leaves the run
    as it is. *)
Definition step (cfg : Config) (r : PipelineRun) (ev : event) : PipelineRun :=
  match current r, ev with
  | Pending, Start => goto r Building
  | Building, Succeeded => goto r Pushing
  | Pushing, Succeeded => goto r Deploying
  | Deploying, Succeeded => goto r Verifying
  | Verifying, Succeeded => goto r Done
  | Verifying, Unhealthy => fail r HealthCheckFailed
  | (Building | Pushing | Deploying | Verifying), Errored e => on_error cfg r e
  | (Pending | Building | Pushing | Deploying | Verifying), Cancel =>
      fail r Cancelled
  | Failed, Succeeded =>
      if rollback_pending cfg r then goto r RolledBack else r
  | Failed, Errored _ =>
      if rollback_pending cfg r
      then mkRun Failed 0 (history r) (Some (Error RollbackFailed))
      else r
  | _, _ => r
  end.

(** Modelled from the spec: a run fed a sequence of events, one
    transition after the other (section 5: stages run strictly in
    sequence). *)
Definition exec (cfg : Config) (r : PipelineRun) (evs : list event) : PipelineRun :=
  fold_left (step cfg) evs r.

(** Modelled from the spec: the remote call a run is about to make in
    its current state, if any (sections 4.1 and 4.4). *)
Definition next_call (cfg : Config) (r : PipelineRun) : option call :=
  match current r with
  | Building => Some CBuild
  | Pushing => Some CPush
  | Deploying => Some CDeploy
  | Verifying => Some CHealthcheck
  | Failed => if rollback_pending cfg r then Some CRollback else None
  | Pending | Done | RolledBack => None
  end.

(** Modelled from the spec: the run driven by the answers of the
    backend: one answer is consumed per remote call, the calls made are
    recorded, and the run stops where no call is due (sections 4.1 and
    5). *)
Fixpoint drive (cfg : Config) (r : PipelineRun) (answers : list event)
  : PipelineRun * list call :=
  match answers with
  | [] => (r, [])
  | a :: rest =>
      match next_call cfg r with
      | None => (r, [])
      | Some c =>
          let (r', calls) := drive cfg (step cfg r a) rest in
          (r', c :: calls)
      end
  end.

Section Resolver.

(** Modelled from the spec: which fields of a ServiceSpec are
    required; the specification does not list them. *)
Variable required : field -> bool.

(** Modelled from the spec: a ServiceSpec misses a required field
    (section 4.3). *)
Definition missing_required (spec : ServiceSpec) : bool :=
  existsb (fun f => required f && negb (present spec f)) all_fields.

(** Modelled from the spec: the build stage resolver of section
    4.3: InvalidSpec when a required field is missing, the ordered
    build steps otherwise. *)
Definition resolve (spec : ServiceSpec) : error + list build_step :=
  if missing_required spec then inl InvalidSpec
  else inr [Compile; Containerize; Tag].

(** Modelled from the spec: one pipeline run for a ServiceSpec: the
    resolver first, then the state machine driven by the backend. *)
Definition orchestrate (cfg : Config) (spec : ServiceSpec)
           (answers : list event) : PipelineRun * list call :=
  match resolve spec with
  | inl e => (fail new_run (Error e), [])
  | inr _ => drive cfg (step cfg new_run Start) answers
  end.

End Resolver.

End Pipeline.

Import Pipeline.

(** Modelled from the spec: one choice of required fields, those the
    command line of section 6 asks for (service, target, image). *)
Definition required_sample (f : field) : bool :=
  match f with
  | FName | FImage | FTarget => true
  | FLimits | FEnv => false
  end.

(** Modelled from the spec: the ServiceSpec of the scenarios of
    section 8. *)
Definition spec_svc1 : ServiceSpec :=
  mkServiceSpec (Some "svc1") (Some "img:v2") (Some CloudRun) None None.

(** Modelled from the spec: a ServiceSpec without its image. *)
Definition spec_no_image : ServiceSpec :=
  mkServiceSpec (Some "svc1") None (Some GKE) None None.

(** Modelled from the spec: the stages, that is the states in which a
    transition is attempted through a remote call (section 4.1). *)
Definition is_stage (s : state) : Prop :=
  s = Building \/ s = Pushing \/ s = Deploying \/ s = Verifying.

(** Modelled from the spec: a failed attempt with a retryable error, of
    whatever kind (section 7: QuotaExceeded or Timeout). *)
Definition retryable_failure (ev : event) : Prop :=
  exists e, ev = Errored e /\ retryable e = true.

(** * Properties of [setup.py] *)

(** ** Basic facts about the primitives *)

Lemma rev_two {A} (pre : list A) (a b : A) :
  rev (pre ++ [a; b]) = b :: a :: rev pre.
Proof. rewrite rev_app_distr. reflexivity. Qed.

Lemma two_last {A} (l : list A) :
  2 <= length l -> exists pre a b, l = pre ++ [a; b].
Proof.
  intros H. rewrite <- (rev_involutive l) in *.
  rewrite length_rev in H.
  destruct (rev l) as [|b [|a r]]; simpl in H; try lia.
  exists (rev r), a, b. simpl. rewrite <- app_assoc. reflexivity.
Qed.

Lemma short_argv {A} (l : list A) :
  length l < 2 -> nth_error (rev l) 1 = None.
Proof.
  intros H. apply nth_error_None. rewrite length_rev. lia.
Qed.

Lemma mem_app x l1 l2 : PyStr.mem x (l1 ++ l2) = PyStr.mem x l1 || PyStr.mem x l2.
Proof. apply existsb_app. Qed.

(** ** The first block: a trailing [--version v] *)

Lemma cmdline_version_eq pre a b ver out :
  cmdline_version (mkState (pre ++ [a; b]) ver out) =
  if String.eqb a "--version" && PyStr.mem "sdist" (pre ++ [a; b])
  then Returns tt (mkState pre (Some b) out)
  else Returns tt (mkState (pre ++ [a; b]) ver out).
Proof.
  unfold cmdline_version, bind, argv_from_end, get_argv, argv_pop, set_version, ret.
  simpl. rewrite rev_two. simpl.
  destruct (String.eqb a "--version" && PyStr.mem "sdist" (pre ++ [a; b])); [|reflexivity].
  cbn [sys_argv version stdout]. rewrite rev_two. cbn.
  rewrite rev_two. cbn. rewrite rev_unit. cbn.
  rewrite !rev_involutive. reflexivity.
Qed.

Lemma cmdline_version_short argv ver out :
  length argv < 2 ->
  cmdline_version (mkState argv ver out) = Raises IndexError (mkState argv ver out).
Proof.
  intros H. unfold cmdline_version, bind, argv_from_end.
  cbn [sys_argv]. change (2 - 1) with 1.
  rewrite (short_argv _ H). reflexivity.
Qed.

(** ** The loop over PKG-INFO *)

Lemma two_tokens_inv l :
  two_tokens l -> exists x v, PyStr.split " " l = [x; v].
Proof.
  unfold two_tokens. destruct (PyStr.split " " l) as [|x [|v [|z r]]];
    simpl; intros H; try discriminate.
  eauto.
Qed.

Lemma two_tokens_dec l : {two_tokens l} + {~ two_tokens l}.
Proof. unfold two_tokens. apply Nat.eq_dec. Qed.

Lemma pkg_info_loop_ok lines : forall s,
  Forall two_tokens (matching lines) ->
  pkg_info_loop lines s =
  Returns tt (mkState (sys_argv s)
                      (match rev (matching lines) with
                       | [] => version s
                       | l :: _ => second_token l
                       end)
                      (stdout s)).
Proof.
  induction lines as [|l rest IH]; intros s H.
  - destruct s; reflexivity.
  - unfold matching in *. cbn [pkg_info_loop filter] in *.
    destruct (PyStr.contains "Version" l) eqn:E.
    + inversion H as [|? ? Hl Hrest]; subst.
      destruct (two_tokens_inv _ Hl) as (x & v & Hs).
      unfold bind at 1. rewrite Hs. cbn [set_version].
      rewrite (IH _ Hrest). cbn [sys_argv version stdout rev].
      destruct (rev (filter (PyStr.contains "Version") rest)) as [|l' r];
        cbn [app]; [|reflexivity].
      unfold second_token. rewrite Hs. reflexivity.
    + unfold bind at 1. cbn [ret]. apply IH, H.
Qed.

Lemma pkg_info_loop_bad lines : forall s,
  Exists (fun l => ~ two_tokens l) (matching lines) ->
  exists s', pkg_info_loop lines s = Raises ValueError s'.
Proof.
  induction lines as [|l rest IH]; intros s H.
  - inversion H.
  - unfold matching in *. cbn [pkg_info_loop filter] in *.
    destruct (PyStr.contains "Version" l) eqn:E.
    + unfold bind at 1.
      destruct (two_tokens_dec l) as [Hl|Hl].
      * destruct (two_tokens_inv _ Hl) as (x & v & Hs). rewrite Hs.
        cbn [set_version]. apply IH.
        inversion H; subst; [contradiction|assumption].
      * unfold two_tokens in Hl.
        destruct (PyStr.split " " l) as [|x [|v [|z r]]]; cbn [raise]; eauto.
        exfalso. apply Hl. reflexivity.
    + unfold bind at 1. cbn [ret]. apply IH, H.
Qed.

(** The loop never touches [sys.argv] or the output, and it can only
    fail with [ValueError]. *)
Lemma pkg_info_loop_frame lines : forall s,
  (exists s', pkg_info_loop lines s = Returns tt s' /\
              sys_argv s' = sys_argv s /\ stdout s' = stdout s) \/
  (exists s', pkg_info_loop lines s = Raises ValueError s' /\
              Exists (fun l => ~ two_tokens l) (matching lines)).
Proof.
  intros s.
  destruct (Forall_Exists_dec two_tokens two_tokens_dec (matching lines)) as [H|H].
  - left. rewrite (pkg_info_loop_ok _ _ H). eexists. split; [reflexivity|]. auto.
  - right. destruct (pkg_info_loop_bad _ s H) as [s' Hs']. eauto.
Qed.

(** ** Lines 7-28 on every shape of the command line *)

Section Resolve.

Variable w : World.

Lemma resolve_short argv :
  length argv < 2 ->
  resolve_version w (initial argv) = Raises IndexError (initial argv).
Proof.
  intros H. unfold resolve_version, bind, initial.
  rewrite (cmdline_version_short _ _ _ H). reflexivity.
Qed.

Lemma sdist_in_prefix pre v :
  PyStr.mem "sdist" (pre ++ ["--version"; v]) = true ->
  v <> "sdist" -> PyStr.mem "sdist" pre = true.
Proof.
  rewrite mem_app. unfold PyStr.mem at 2. cbn [existsb].
  intros H Hv. apply orb_true_iff in H. destruct H as [H|H]; [exact H|].
  change ("sdist" =? "--version")%string with false in H. cbn [orb] in H.
  rewrite orb_false_r in H. apply String.eqb_eq in H. congruence.
Qed.

(** A trailing [--version v] together with [sdist]. *)
Lemma resolve_cmdline pre v :
  PyStr.mem "sdist" (pre ++ ["--version"; v]) = true ->
  resolve_version w (initial (pre ++ ["--version"; v])) =
  match v with
  | EmptyString => Raises (Exception msg_version) (mkState pre (Some v) [])
  | _ => Returns tt (mkState pre (Some v) [])
  end.
Proof.
  intros H. unfold resolve_version, bind, initial.
  rewrite cmdline_version_eq, H, String.eqb_refl. cbn [andb].
  destruct v as [|c v'].
  - unfold sdist_guard, bind, get_argv, get_version.
    cbn [sys_argv version stdout truthy negb].
    rewrite (sdist_in_prefix pre "" H); [reflexivity|discriminate].
  - unfold sdist_guard, fallback_version, bind, get_argv, get_version.
    cbn [sys_argv version stdout truthy negb].
    rewrite andb_false_r. reflexivity.
Qed.

(** No version taken from the command line. *)
Lemma resolve_no_cmdline pre a b :
  String.eqb a "--version" && PyStr.mem "sdist" (pre ++ [a; b]) = false ->
  resolve_version w (initial (pre ++ [a; b])) =
  if PyStr.mem "sdist" (pre ++ [a; b])
  then Raises (Exception msg_version) (initial (pre ++ [a; b]))
  else match pkg_info w with
       | NoFile => Returns tt (mkState (pre ++ [a; b]) None [msg_warning])
       | Unreadable => Raises OSError (initial (pre ++ [a; b]))
       | Undecodable => Raises UnicodeDecodeError (initial (pre ++ [a; b]))
       | Text t => pkg_info_loop (PyStr.readlines t) (initial (pre ++ [a; b]))
       end.
Proof.
  intros H. unfold resolve_version, bind, initial.
  rewrite cmdline_version_eq, H.
  unfold sdist_guard, fallback_version, bind, get_argv, get_version.
  cbn [sys_argv version stdout truthy negb].
  destruct (PyStr.mem "sdist" (pre ++ [a; b])) eqn:E;
    cbn [andb raise ret sys_argv version stdout truthy negb]; [reflexivity|].
  rewrite E.
  destruct (pkg_info w) as [| | |t];
    cbn [isfile open_read raise ret print sys_argv version stdout app];
    reflexivity.
Qed.

End Resolve.

(** ** From the resolved version to the call of [setup] *)

Lemma strip_and_print_eq s : strip_and_print s = Returns tt (stripped s).
Proof.
  destruct s as [argv [[|c v]|] out]; reflexivity.
Qed.

Lemma run_eq w argv :
  run w argv =
  match resolve_version w (initial argv) with
  | Raises e s => Raises e s
  | Returns _ s1 =>
      match readme w with
      | Text t => Returns (kwargs w (version (stripped s1)) t) (stripped s1)
      | Undecodable => Raises UnicodeDecodeError (stripped s1)
      | NoFile | Unreadable => Raises OSError (stripped s1)
      end
  end.
Proof.
  unfold run, script. unfold bind at 1.
  destruct (resolve_version w (initial argv)) as [[] s1|e s1]; [|reflexivity].
  unfold bind at 1. rewrite strip_and_print_eq.
  destruct (readme w); reflexivity.
Qed.

(** What a run that reaches [setup] has gone through. *)
Lemma run_returns w argv c s :
  run w argv = Returns c s ->
  exists s1 t,
    resolve_version w (initial argv) = Returns tt s1 /\
    readme w = Text t /\
    s = stripped s1 /\
    c = kwargs w (option_map PyStr.strip (version s1)) t.
Proof.
  rewrite run_eq.
  destruct (resolve_version w (initial argv)) as [[] s1|e s1]; [|discriminate].
  destruct (readme w) as [| | |t]; try discriminate.
  intros H. inversion H; subst. exists s1, t. auto.
Qed.

Lemma app_two_inj {A} (p q : list A) (a b c d : A) :
  p ++ [a; b] = q ++ [c; d] -> p = q /\ a = c /\ b = d.
Proof.
  intros H.
  change (p ++ [a; b]) with (p ++ [a] ++ [b]) in H.
  change (q ++ [c; d]) with (q ++ [c] ++ [d]) in H.
  rewrite !app_assoc in H.
  apply app_inj_tail in H. destruct H as [H ?].
  apply app_inj_tail in H. destruct H as [? ?]. auto.
Qed.

Example run_sdist :
  run world_sample argv_sdist =
  Returns (kwargs world_sample (Some "1.0.4") "# pymacaron-gcp")
          (mkState ["setup.py"; "sdist"] (Some "1.0.4") ["version: 1.0.4"]).
Proof. reflexivity. Qed.

Example run_install :
  run world_sample argv_install =
  Returns (kwargs world_sample (Some "1.2.3") "# pymacaron-gcp")
          (mkState argv_install (Some "1.2.3") ["version: 1.2.3"]).
Proof. reflexivity. Qed.

(** ** The call of [setup] *)

(** C3: every run that reaches the call of [setup] passes the same
    static fields, whatever the command line and the files are: the
    name 'pymacaron-gcp', the license 'BSD', an empty install_requires
    and the classifier list of the file. *)
Theorem setup_static_fields w argv c s :
  run w argv = Returns c s ->
  kw_name c = "pymacaron-gcp" /\
  kw_license c = "BSD" /\
  kw_install_requires c = [] /\
  kw_classifiers c =
    [ "Environment :: Web Environment";
      "Intended Audience :: Developers";
      "License :: OSI Approved :: BSD License";
      "Operating System :: OS Independent";
      "Programming Language :: Python";
      "Topic :: Internet :: WWW/HTTP :: Dynamic Content";
      "Topic :: Software Development :: Libraries :: Python Modules" ].
Proof.
  intros H. apply run_returns in H.
  destruct H as (s1 & t & _ & _ & _ & ->). repeat split.
Qed.

Lemma setup_static_fields_witness :
  kw_name (kwargs world_sample (Some "1.0.4") "# pymacaron-gcp") = "pymacaron-gcp" /\
  kw_license (kwargs world_sample (Some "1.0.4") "# pymacaron-gcp") = "BSD" /\
  kw_install_requires (kwargs world_sample (Some "1.0.4") "# pymacaron-gcp") = [] /\
  kw_classifiers (kwargs world_sample (Some "1.0.4") "# pymacaron-gcp") =
    [ "Environment :: Web Environment";
      "Intended Audience :: Developers";
      "License :: OSI Approved :: BSD License";
      "Operating System :: OS Independent";
      "Programming Language :: Python";
      "Topic :: Internet :: WWW/HTTP :: Dynamic Content";
      "Topic :: Software Development :: Libraries :: Python Modules" ].
Proof.
  apply (setup_static_fields world_sample argv_sdist _
           (mkState ["setup.py"; "sdist"] (Some "1.0.4") ["version: 1.0.4"])).
  reflexivity.
Defined.

(** C7: a run that reaches the call of [setup] has read README.md, and
    the long_description it passes is exactly the text of that file,
    with content type 'text/markdown'. *)
Theorem long_description_is_readme w argv c s :
  run w argv = Returns c s ->
  readme w = Text (kw_long_description c) /\
  kw_long_description_content_type c = "text/markdown".
Proof.
  intros H. apply run_returns in H.
  destruct H as (s1 & t & _ & Hr & _ & ->). split; [exact Hr|reflexivity].
Qed.

Lemma long_description_is_readme_witness :
  readme world_sample =
    Text (kw_long_description (kwargs world_sample (Some "1.2.3") "# pymacaron-gcp")) /\
  kw_long_description_content_type
    (kwargs world_sample (Some "1.2.3") "# pymacaron-gcp") = "text/markdown".
Proof.
  apply (long_description_is_readme world_sample argv_install _
           (mkState argv_install (Some "1.2.3") ["version: 1.2.3"])).
  reflexivity.
Defined.

(** ** The effect on [sys.argv] *)

(** C8: in a run that reaches the call of [setup], when the command
    line ends in [--version v] and contains 'sdist', [sys.argv] has
    lost exactly these last two elements; in every other case it is the
    command line the script was started with. *)
Theorem sys_argv_effect w argv c s :
  run w argv = Returns c s ->
  (forall pre v,
      argv = pre ++ ["--version"; v] -> PyStr.mem "sdist" argv = true ->
      sys_argv s = pre) /\
  ((forall pre v,
      argv = pre ++ ["--version"; v] -> PyStr.mem "sdist" argv = false) ->
   sys_argv s = argv).
Proof.
  intros H. apply run_returns in H.
  destruct H as (s1 & t & Hres & _ & -> & _). cbn [stripped sys_argv].
  split.
  - intros pre v -> Hs. rewrite (resolve_cmdline w pre v Hs) in Hres.
    destruct v; [discriminate|]. inversion Hres. reflexivity.
  - intros Hno.
    destruct (le_lt_dec 2 (length argv)) as [Hlen|Hlen].
    + destruct (two_last argv Hlen) as (pre & a & b & ->).
      assert (Hc : String.eqb a "--version" && PyStr.mem "sdist" (pre ++ [a; b]) = false).
      { destruct (String.eqb a "--version") eqn:Ea; [|reflexivity].
        apply String.eqb_eq in Ea. subst a. cbn [andb]. eapply Hno. reflexivity. }
      rewrite (resolve_no_cmdline w pre a b Hc) in Hres.
      destruct (PyStr.mem "sdist" (pre ++ [a; b])); [discriminate|].
      destruct (pkg_info w) as [| | |txt]; try discriminate.
      * inversion Hres. reflexivity.
      * destruct (pkg_info_loop_frame (PyStr.readlines txt) (initial (pre ++ [a; b])))
          as [(s' & Hl & Ha & _)|(s' & Hl & _)]; rewrite Hl in Hres.
        -- inversion Hres; subst. exact Ha.
        -- discriminate.
    + rewrite (resolve_short w argv Hlen) in Hres. discriminate.
Qed.

Lemma sys_argv_effect_witness :
  sys_argv (mkState ["setup.py"; "sdist"] (Some "1.0.4") ["version: 1.0.4"]) =
  ["setup.py"; "sdist"].
Proof.
  apply (proj1 (sys_argv_effect world_sample argv_sdist _ _ run_sdist)
           ["setup.py"; "sdist"] " 1.0.4 "); reflexivity.
Defined.

(** ** The version handed to [setup] *)

Lemma last_matching ms l (v0 : option string) :
  match rev (ms ++ [l]) with
  | [] => v0
  | l' :: _ => second_token l'
  end = second_token l.
Proof. rewrite rev_unit. reflexivity. Qed.

(** The version found in a readable PKG-INFO all of whose 'Version'
    lines split in two. *)
Lemma resolve_pkg_info w argv t :
  2 <= length argv ->
  PyStr.mem "sdist" argv = false ->
  pkg_info w = Text t ->
  Forall two_tokens (matching (PyStr.readlines t)) ->
  resolve_version w (initial argv) =
  Returns tt (mkState argv
                (match rev (matching (PyStr.readlines t)) with
                 | [] => None
                 | l :: _ => second_token l
                 end) []).
Proof.
  intros Hlen Hs Hp Hall.
  destruct (two_last argv Hlen) as (pre & a & b & ->).
  rewrite resolve_no_cmdline by (rewrite Hs; apply andb_false_r).
  rewrite Hs, Hp.
  exact (pkg_info_loop_ok (PyStr.readlines t) (initial (pre ++ [a; b])) Hall).
Qed.

Lemma resolve_pkg_info_bad w argv t :
  2 <= length argv ->
  PyStr.mem "sdist" argv = false ->
  pkg_info w = Text t ->
  Exists (fun l => ~ two_tokens l) (matching (PyStr.readlines t)) ->
  exists s, resolve_version w (initial argv) = Raises ValueError s.
Proof.
  intros Hlen Hs Hp Hex.
  destruct (two_last argv Hlen) as (pre & a & b & ->).
  rewrite resolve_no_cmdline by (rewrite Hs; apply andb_false_r).
  rewrite Hs, Hp.
  exact (pkg_info_loop_bad (PyStr.readlines t) (initial (pre ++ [a; b])) Hex).
Qed.

Lemma resolve_no_pkg_info w argv :
  2 <= length argv ->
  PyStr.mem "sdist" argv = false ->
  pkg_info w = NoFile ->
  resolve_version w (initial argv) = Returns tt (mkState argv None [msg_warning]).
Proof.
  intros Hlen Hs Hp.
  destruct (two_last argv Hlen) as (pre & a & b & ->).
  rewrite resolve_no_cmdline by (rewrite Hs; apply andb_false_r).
  rewrite Hs, Hp. reflexivity.
Qed.

(** C9: in a run that reaches the call of [setup], the version passed
    is the value left by lines 7-28 with leading and trailing
    whitespace stripped: the stripped last argument when it came from
    the command line, the stripped second token of the last 'Version'
    line when it came from PKG-INFO, and [None] when neither gave one. *)
Theorem setup_version_stripped w argv c s :
  run w argv = Returns c s ->
  (exists s1, resolve_version w (initial argv) = Returns tt s1 /\
              kw_version c = option_map PyStr.strip (version s1)) /\
  (forall pre v,
      argv = pre ++ ["--version"; v] -> PyStr.mem "sdist" argv = true ->
      kw_version c = Some (PyStr.strip v)) /\
  (forall t ms l,
      PyStr.mem "sdist" argv = false -> pkg_info w = Text t ->
      matching (PyStr.readlines t) = ms ++ [l] ->
      exists x v, PyStr.split " " l = [x; v] /\ kw_version c = Some (PyStr.strip v)) /\
  (PyStr.mem "sdist" argv = false ->
   pkg_info w = NoFile \/
   (exists t, pkg_info w = Text t /\ matching (PyStr.readlines t) = []) ->
   kw_version c = None).
Proof.
  intros H. apply run_returns in H.
  destruct H as (s1 & t0 & Hres & _ & _ & ->). cbn [kwargs kw_version].
  assert (Hlen : 2 <= length argv).
  { destruct (le_lt_dec 2 (length argv)) as [Hl|Hl]; [exact Hl|].
    rewrite (resolve_short w argv Hl) in Hres. discriminate. }
  split; [eauto|]. split; [|split].
  - intros pre v -> Hs. rewrite (resolve_cmdline w pre v Hs) in Hres.
    destruct v; [discriminate|]. inversion Hres. reflexivity.
  - intros t ms l Hs Hp Hm.
    destruct (Forall_Exists_dec two_tokens two_tokens_dec
                (matching (PyStr.readlines t))) as [Hall|Hex].
    + rewrite (resolve_pkg_info w argv t Hlen Hs Hp Hall) in Hres.
      inversion Hres; subst s1. cbn [version].
      rewrite Hm, last_matching.
      assert (Hl : two_tokens l).
      { rewrite Hm in Hall. apply Forall_app in Hall.
        destruct Hall as [_ Hall]. inversion Hall. assumption. }
      destruct (two_tokens_inv l Hl) as (x & v & Hx).
      exists x, v. split; [exact Hx|]. unfold second_token. rewrite Hx. reflexivity.
    + destruct (resolve_pkg_info_bad w argv t Hlen Hs Hp Hex) as [s' Hs'].
      rewrite Hs' in Hres. discriminate.
  - intros Hs [Hp|(t & Hp & Hm)].
    + rewrite (resolve_no_pkg_info w argv Hlen Hs Hp) in Hres.
      inversion Hres. reflexivity.
    + assert (Hall : Forall two_tokens (matching (PyStr.readlines t))).
      { rewrite Hm. constructor. }
      rewrite (resolve_pkg_info w argv t Hlen Hs Hp Hall), Hm in Hres.
      inversion Hres. reflexivity.
Qed.

Lemma setup_version_stripped_witness :
  kw_version (kwargs world_sample (Some "1.0.4") "# pymacaron-gcp") =
  Some (PyStr.strip " 1.0.4 ").
Proof.
  apply (proj1 (proj2 (setup_version_stripped world_sample argv_sdist _ _ run_sdist))
           ["setup.py"; "sdist"] " 1.0.4 "); reflexivity.
Defined.

(** ** Several 'Version' lines in PKG-INFO *)

(** C10: when the version is read from PKG-INFO (at least two
    arguments, no 'sdist', a readable PKG-INFO), every line containing
    'Version' overwrites the value, so the version left is the second
    token of the last such line; and every such line has to split on
    single spaces into exactly two tokens, or the script stops with a
    ValueError. *)
Theorem pkg_info_last_version_line w argv t :
  2 <= length argv ->
  PyStr.mem "sdist" argv = false ->
  pkg_info w = Text t ->
  (forall ms l,
      matching (PyStr.readlines t) = ms ++ [l] ->
      Forall two_tokens (ms ++ [l]) ->
      exists s x v,
        resolve_version w (initial argv) = Returns tt s /\
        PyStr.split " " l = [x; v] /\ version s = Some v) /\
  (Exists (fun l => ~ two_tokens l) (matching (PyStr.readlines t)) ->
   exists s, resolve_version w (initial argv) = Raises ValueError s /\
             run w argv = Raises ValueError s).
Proof.
  intros Hlen Hs Hp. split.
  - intros ms l Hm Hall. rewrite <- Hm in Hall.
    rewrite (resolve_pkg_info w argv t Hlen Hs Hp Hall), Hm, last_matching.
    assert (Hl : two_tokens l).
    { rewrite Hm in Hall. apply Forall_app in Hall.
      destruct Hall as [_ Hall]. inversion Hall. assumption. }
    destruct (two_tokens_inv l Hl) as (x & v & Hx).
    eexists _, x, v. split; [reflexivity|]. split; [exact Hx|].
    cbn [version]. unfold second_token. rewrite Hx. reflexivity.
  - intros Hex.
    destruct (resolve_pkg_info_bad w argv t Hlen Hs Hp Hex) as [s Hs'].
    exists s. split; [exact Hs'|]. rewrite run_eq, Hs'. reflexivity.
Qed.

Lemma pkg_info_last_version_line_witness :
  exists s x v,
    resolve_version world_sample (initial argv_install) = Returns tt s /\
    PyStr.split " " ("Version: 1.2.3" ++ nl)%string = [x; v] /\
    version s = Some v.
Proof.
  apply (proj1 (pkg_info_last_version_line world_sample argv_install
                  pkg_info_sample (le_n 2) eq_refl eq_refl)
           [("Metadata-Version: 2.1" ++ nl)%string]
           ("Version: 1.2.3" ++ nl)%string).
  - reflexivity.
  - repeat constructor.
Defined.

(** ** How the version is resolved *)

(** C2 as stated fails: 'sdist' is absent and PKG-INFO exists, yet the
    version is not a token of any line of PKG-INFO containing
    'Version' (there is no such line); the version stays None. *)
Lemma version_resolution_counterexample :
  PyStr.mem "sdist" argv_install = false /\
  isfile (pkg_info world_no_version_line) = true /\
  resolve_version world_no_version_line (initial argv_install) =
    Returns tt (mkState argv_install None []) /\
  ~ (exists l,
        In l (PyStr.readlines ("Name: pymacaron-gcp" ++ nl)%string) /\
        PyStr.contains "Version" l = true /\
        version (final (resolve_version world_no_version_line (initial argv_install)))
        = second_token l).
Proof.
  repeat split.
  intros (l & Hin & Hc & _). cbn in Hin.
  destruct Hin as [<-|[]]. vm_compute in Hc. discriminate.
Qed.

(** C2, amended: with at least two arguments, (1) a trailing
    [--version v] together with 'sdist' makes [v] the version; (2)
    without 'sdist' and with a readable PKG-INFO whose 'Version' lines
    all split in two, the version is the second token of the last such
    line, and stays None, with nothing printed, when there is no such
    line; (3) without 'sdist' and without a PKG-INFO file the version
    stays None and only the warning is printed. *)
Theorem version_resolution w argv :
  2 <= length argv ->
  (forall pre v,
      argv = pre ++ ["--version"; v] -> PyStr.mem "sdist" argv = true ->
      version (final (resolve_version w (initial argv))) = Some v /\
      (v <> "" ->
       resolve_version w (initial argv) = Returns tt (mkState pre (Some v) []))) /\
  (PyStr.mem "sdist" argv = false ->
   forall t, pkg_info w = Text t ->
   Forall two_tokens (matching (PyStr.readlines t)) ->
   exists s,
     resolve_version w (initial argv) = Returns tt s /\ stdout s = [] /\
     (forall ms l, matching (PyStr.readlines t) = ms ++ [l] ->
                   version s = second_token l) /\
     (matching (PyStr.readlines t) = [] -> version s = None)) /\
  (PyStr.mem "sdist" argv = false -> pkg_info w = NoFile ->
   exists s,
     resolve_version w (initial argv) = Returns tt s /\
     version s = None /\ stdout s = [msg_warning]).
Proof.
  intros Hlen. split; [|split].
  - intros pre v -> Hs. rewrite (resolve_cmdline w pre v Hs).
    destruct v; split; try reflexivity. intros H. contradiction H. reflexivity.
  - intros Hs t Hp Hall.
    rewrite (resolve_pkg_info w argv t Hlen Hs Hp Hall).
    eexists. split; [reflexivity|]. cbn [stdout version].
    split; [reflexivity|]. split.
    + intros ms l ->. apply last_matching.
    + intros ->. reflexivity.
  - intros Hs Hp. rewrite (resolve_no_pkg_info w argv Hlen Hs Hp).
    eexists. split; [reflexivity|]. split; reflexivity.
Qed.

Lemma version_resolution_witness :
  version (final (resolve_version world_sample (initial argv_sdist))) = Some " 1.0.4 ".
Proof.
  apply (proj1 (version_resolution world_sample argv_sdist
                  (le_S _ _ (le_S _ _ (le_n 2))))
           ["setup.py"; "sdist"] " 1.0.4 " eq_refl eq_refl).
Defined.

(** ** What the script raises *)

(** C1 as stated fails: started without 'sdist', in a directory with
    no README.md, the script raises before it reaches [setup]. *)
Lemma raises_counterexample :
  PyStr.mem "sdist" argv_install = false /\
  run world_no_readme argv_install =
    Raises OSError (mkState argv_install (Some "1.2.3") ["version: 1.2.3"]).
Proof. split; reflexivity. Qed.

Lemma resolve_raises w argv e s :
  resolve_version w (initial argv) = Raises e s ->
  (e = IndexError /\ length argv < 2) \/
  (e = Exception msg_version /\ 2 <= length argv /\
   PyStr.mem "sdist" argv = true /\
   forall pre v, argv = pre ++ ["--version"; v] -> v = "") \/
  (e = ValueError /\ PyStr.mem "sdist" argv = false /\
   exists t, pkg_info w = Text t /\
             Exists (fun l => ~ two_tokens l) (matching (PyStr.readlines t))) \/
  (e = OSError /\ PyStr.mem "sdist" argv = false /\ pkg_info w = Unreadable) \/
  (e = UnicodeDecodeError /\ PyStr.mem "sdist" argv = false /\
   pkg_info w = Undecodable).
Proof.
  intros H.
  destruct (le_lt_dec 2 (length argv)) as [Hlen|Hlen].
  2:{ rewrite (resolve_short w argv Hlen) in H. inversion H. auto. }
  destruct (two_last argv Hlen) as (pre & a & b & Hargv).
  destruct (String.eqb a "--version" && PyStr.mem "sdist" argv) eqn:Hc.
  - apply andb_true_iff in Hc. destruct Hc as [Ha Hs].
    apply String.eqb_eq in Ha. subst a.
    pose proof (resolve_cmdline w pre b) as R. rewrite <- Hargv in R.
    rewrite (R Hs) in H. destruct b; [|discriminate].
    inversion H. right; left. repeat split; auto.
    intros pre' v' E. rewrite Hargv in E.
    apply app_two_inj in E. destruct E as (_ & _ & E). congruence.
  - pose proof (resolve_no_cmdline w pre a b) as R. rewrite <- Hargv in R.
    rewrite (R Hc) in H.
    destruct (PyStr.mem "sdist" argv) eqn:Hs.
    + inversion H. right; left. repeat split; auto.
      intros pre' v' E. rewrite Hargv in E.
      apply app_two_inj in E. destruct E as (_ & E & _). subst a.
      rewrite String.eqb_refl in Hc. discriminate.
    + destruct (pkg_info w) as [| | |t] eqn:Hp; try discriminate.
      * inversion H. right; right; right; left. auto.
      * inversion H. right; right; right; right. auto.
      * destruct (pkg_info_loop_frame (PyStr.readlines t) (initial argv))
          as [(s' & Hl & _)|(s' & Hl & Hex)]; rewrite Hl in H; [discriminate|].
        inversion H. right; right; left. eauto.
Qed.

(** C1, amended: the script raises its own exception ('Please set a
    version with --version x.y.z') if and only if it is started with at
    least two arguments, 'sdist' is among them and no non-empty version
    follows a trailing '--version'.  It handles no failure, so every
    other exception met before [setup] is called comes from an
    operation itself and is one of: an IndexError from [sys.argv[-2]],
    only with fewer than two arguments; a ValueError, only when
    PKG-INFO has a line containing 'Version' that does not split in
    two; an OSError, only when PKG-INFO cannot be opened or README.md
    is missing or cannot be opened; a UnicodeDecodeError, only when
    PKG-INFO or README.md cannot be decoded. *)
Theorem raises_iff w argv :
  ((exists s, run w argv = Raises (Exception msg_version) s) <->
   (2 <= length argv /\ PyStr.mem "sdist" argv = true /\
    forall pre v, argv = pre ++ ["--version"; v] -> v = "")) /\
  (forall e s,
      run w argv = Raises e s ->
      e = Exception msg_version \/
      (e = IndexError /\ length argv < 2) \/
      (e = ValueError /\
       exists t, pkg_info w = Text t /\
                 Exists (fun l => ~ two_tokens l) (matching (PyStr.readlines t))) \/
      (e = OSError /\
       (pkg_info w = Unreadable \/ readme w = NoFile \/ readme w = Unreadable)) \/
      (e = UnicodeDecodeError /\
       (pkg_info w = Undecodable \/ readme w = Undecodable))).
Proof.
  assert (Hall : forall e s,
      run w argv = Raises e s ->
      resolve_version w (initial argv) = Raises e s \/
      (e = OSError /\ (readme w = NoFile \/ readme w = Unreadable)) \/
      (e = UnicodeDecodeError /\ readme w = Undecodable)).
  { intros e s H. rewrite run_eq in H.
    destruct (resolve_version w (initial argv)) as [[] s1|e1 s1].
    - destruct (readme w) as [| | |t]; inversion H; auto.
    - inversion H. auto. }
  split; [split|].
  - intros [s H]. destruct (Hall _ _ H) as [R|[[R _]|[R _]]]; try discriminate.
    apply resolve_raises in R.
    destruct R as [[R _]|[(_ & R)|[[R _]|[[R _]|[R _]]]]]; try discriminate.
    exact R.
  - intros (Hlen & Hs & Hv).
    destruct (two_last argv Hlen) as (pre & a & b & Hargv).
    rewrite run_eq.
    destruct (String.eqb a "--version") eqn:Ha.
    + apply String.eqb_eq in Ha. subst a.
      rewrite (Hv pre b Hargv) in Hargv.
      pose proof (resolve_cmdline w pre "") as R. rewrite <- Hargv in R.
      rewrite (R Hs). eauto.
    + pose proof (resolve_no_cmdline w pre a b) as R. rewrite <- Hargv in R.
      rewrite R, Hs by (rewrite Ha; reflexivity). eauto.
  - intros e s H. destruct (Hall _ _ H) as [R|[[R Hr]|[R Hr]]].
    + apply resolve_raises in R.
      destruct R as [R|[(R & _)|[(R & _ & Hex)|[(R & _ & Hp)|(R & _ & Hp)]]]].
      * right; left. exact R.
      * left. exact R.
      * right; right; left. auto.
      * right; right; right; left. auto.
      * right; right; right; right. auto.
    + right; right; right; left. split; [exact R|]. right. exact Hr.
    + right; right; right; right. auto.
Qed.

Lemma raises_iff_witness :
  exists s, run world_sample ["setup.py"; "sdist"] = Raises (Exception msg_version) s.
Proof.
  apply (proj2 (proj1 (raises_iff world_sample ["setup.py"; "sdist"]))).
  split; [apply le_n|]. split; [reflexivity|].
  intros pre v E.
  destruct (app_two_inj [] pre "setup.py" "sdist" "--version" v E) as (_ & E' & _).
  discriminate E'.
Defined.

(** ** Properties of the modelled pipeline *)

Example orchestrate_svc1 :
  orchestrate required_sample default_config spec_svc1
    [Succeeded; Succeeded; Errored QuotaExceeded; Errored QuotaExceeded;
     Succeeded; Succeeded; Succeeded] =
  (mkRun Done 0
         [(Pending, 0); (Building, 0); (Pushing, 0); (Deploying, 2); (Verifying, 0)]
         None,
   [CBuild; CPush; CDeploy; CDeploy; CDeploy; CHealthcheck]).
Proof. reflexivity. Qed.

(** C4: a ServiceSpec that lacks a required field makes the run fail
    with InvalidSpec, and no remote call has been made, whatever the
    backend would have answered. *)
Theorem invalid_spec_fails_fast
        (required : field -> bool) cfg spec answers f :
  required f = true -> present spec f = false ->
  resolve required spec = inl InvalidSpec /\
  exists r,
    orchestrate required cfg spec answers = (r, []) /\
    current r = Failed /\ failure r = Some (Error InvalidSpec).
Proof.
  intros Hr Hp.
  assert (Hm : missing_required required spec = true).
  { unfold missing_required. apply existsb_exists. exists f. split.
    - destruct f; simpl; auto 6.
    - rewrite Hr, Hp. reflexivity. }
  unfold orchestrate, resolve. rewrite Hm. split; [reflexivity|].
  eexists. split; [reflexivity|]. split; reflexivity.
Qed.

Lemma invalid_spec_fails_fast_witness :
  resolve required_sample spec_no_image = inl InvalidSpec /\
  exists r,
    orchestrate required_sample default_config spec_no_image
                [Succeeded; Succeeded; Succeeded; Succeeded] = (r, []) /\
    current r = Failed /\ failure r = Some (Error InvalidSpec).
Proof.
  apply (invalid_spec_fails_fast required_sample default_config spec_no_image
           [Succeeded; Succeeded; Succeeded; Succeeded] FImage); reflexivity.
Defined.

Lemma step_retryable cfg r e :
  is_stage (current r) -> retryable e = true ->
  step cfg r (Errored e) =
  if (retries r <? max_retries cfg)%nat then retry r else fail r (Error e).
Proof.
  intros Hs He. unfold step, on_error.
  destruct Hs as [H|[H|[H|H]]]; rewrite H, He; reflexivity.
Qed.

Lemma exec_retries cfg evs : forall r,
  is_stage (current r) -> Forall retryable_failure evs ->
  retries r + length evs <= max_retries cfg ->
  exec cfg r evs =
  mkRun (current r) (retries r + length evs) (history r) (failure r).
Proof.
  induction evs as [|ev evs IH]; intros r Hs Hall Hk.
  - cbn [length]. rewrite Nat.add_0_r. destruct r; reflexivity.
  - inversion Hall as [|? ? (e & -> & He) Hrest]; subst.
    cbn [length] in Hk. cbn [exec fold_left].
    rewrite (step_retryable cfg r e Hs He).
    assert (Hlt : (retries r <? max_retries cfg)%nat = true)
      by (apply Nat.ltb_lt; lia).
    rewrite Hlt. fold (exec cfg (retry r) evs).
    rewrite IH; cbn [retry current retries history failure length]; auto; try lia.
    f_equal. lia.
Qed.

(** C5: in a stage, every retryable error is retried, whatever mix of
    retryable errors occurs: as long as the retries made and the
    failures that follow stay within the configured maximum, the run is
    still in its stage and each failure has counted as one retry; the
    failure that exceeds the maximum sends the run to Failed with the
    error of that last attempt.  From a fresh stage ([retries r = 0])
    that is: up to the maximum failures are retried, and failure
    number maximum + 1 ends in Failed.  The default maximum is 3. *)
Theorem retry_up_to_max cfg r evs :
  is_stage (current r) -> Forall retryable_failure evs ->
  (retries r + length evs <= max_retries cfg ->
   exec cfg r evs =
   mkRun (current r) (retries r + length evs) (history r) (failure r)) /\
  (retries r <= max_retries cfg ->
   retries r + length evs = S (max_retries cfg) ->
   exists evs' e,
     evs = evs' ++ [Errored e] /\
     exec cfg r evs =
     mkRun Failed 0 (history r ++ [(current r, max_retries cfg)])
           (Some (Error e))) /\
  max_retries default_config = 3.
Proof.
  intros Hs Hall. split; [|split; [|reflexivity]].
  - intros Hk. apply exec_retries; assumption.
  - intros Hle Hk.
    destruct evs as [|ev0 evs0] using rev_ind; [cbn [length] in Hk; lia|].
    clear IHevs0. rewrite length_app in Hk. cbn [length] in Hk.
    apply Forall_app in Hall. destruct Hall as [Hall Hlast].
    inversion Hlast as [|? ? (e & -> & He) _]; subst.
    exists evs0, e. split; [reflexivity|].
    unfold exec. rewrite fold_left_app. fold (exec cfg r evs0).
    rewrite (exec_retries cfg evs0 r Hs Hall) by lia.
    cbn [fold_left]. rewrite step_retryable by assumption.
    cbn [retries].
    replace (retries r + length evs0) with (max_retries cfg) by lia.
    rewrite Nat.ltb_irrefl. reflexivity.
Qed.

Lemma retry_up_to_max_witness :
  exists evs' e,
    [Errored QuotaExceeded; Errored Timeout; Errored QuotaExceeded; Errored Timeout]
    = evs' ++ [Errored e] /\
    exec default_config (mkRun Deploying 0 [] None)
         [Errored QuotaExceeded; Errored Timeout; Errored QuotaExceeded; Errored Timeout]
    = mkRun Failed 0 ([] ++ [(Deploying, max_retries default_config)])
            (Some (Error e)).
Proof.
  apply (proj1 (proj2 (retry_up_to_max default_config (mkRun Deploying 0 [] None)
           [Errored QuotaExceeded; Errored Timeout; Errored QuotaExceeded; Errored Timeout]
           (or_intror (or_intror (or_introl eq_refl)))
           (Forall_cons _ (ex_intro _ QuotaExceeded (conj eq_refl eq_refl))
             (Forall_cons _ (ex_intro _ Timeout (conj eq_refl eq_refl))
               (Forall_cons _ (ex_intro _ QuotaExceeded (conj eq_refl eq_refl))
                 (Forall_cons _ (ex_intro _ Timeout (conj eq_refl eq_refl))
                   (Forall_nil _)))))))).
  - apply le_0_n.
  - reflexivity.
Defined.

Lemma step_terminal cfg r ev :
  current r = Done \/ current r = RolledBack -> step cfg r ev = r.
Proof.
  intros [H|H]; unfold step; rewrite H; destruct ev; reflexivity.
Qed.

Lemma exec_terminal cfg evs : forall r,
  current r = Done \/ current r = RolledBack -> exec cfg r evs = r.
Proof.
  induction evs as [|ev evs IH]; intros r H; [reflexivity|].
  cbn [exec fold_left]. rewrite (step_terminal cfg r ev H). apply IH, H.
Qed.

(** C6: Done and RolledBack are terminal: once a run has reached one of
    them, no further event changes it; in particular a run that has
    reached Done is never again in Building, Pushing or Deploying, and
    it makes no further remote call. *)
Theorem done_is_terminal cfg evs1 evs2 :
  current (exec cfg new_run evs1) = Done \/
  current (exec cfg new_run evs1) = RolledBack ->
  exec cfg new_run (evs1 ++ evs2) = exec cfg new_run evs1 /\
  current (exec cfg new_run (evs1 ++ evs2)) <> Building /\
  current (exec cfg new_run (evs1 ++ evs2)) <> Pushing /\
  current (exec cfg new_run (evs1 ++ evs2)) <> Deploying /\
  next_call cfg (exec cfg new_run (evs1 ++ evs2)) = None.
Proof.
  intros H.
  assert (E : exec cfg new_run (evs1 ++ evs2) = exec cfg new_run evs1).
  { unfold exec at 1. rewrite fold_left_app. apply (exec_terminal cfg evs2), H. }
  rewrite E. split; [reflexivity|]. unfold next_call.
  destruct H as [H|H]; rewrite H; repeat split; discriminate.
Qed.

Lemma done_is_terminal_witness :
  exec default_config new_run
       ([Start; Succeeded; Succeeded; Succeeded; Succeeded] ++ [Start; Succeeded; Cancel]) =
  exec default_config new_run [Start; Succeeded; Succeeded; Succeeded; Succeeded].
Proof.
  apply (proj1 (done_is_terminal default_config
                  [Start; Succeeded; Succeeded; Succeeded; Succeeded]
                  [Start; Succeeded; Cancel]
                  (or_introl eq_refl))).
Defined.

(** * Further properties of [setup.py] *)

(** ** The string primitives *)

Lemma split_nonempty sep s : PyStr.split sep s <> [].
Proof.
  destruct s as [|c s']; cbn [PyStr.split]; [discriminate|].
  destruct (Ascii.eqb c sep); [discriminate|].
  destruct (PyStr.split sep s'); discriminate.
Qed.

Lemma split_length sep s :
  length (PyStr.split sep s) = S (count_char sep s).
Proof.
  induction s as [|c s' IH]; [reflexivity|].
  cbn [PyStr.split count_char].
  destruct (Ascii.eqb c sep).
  - cbn [length]. rewrite IH. reflexivity.
  - destruct (PyStr.split sep s') as [|h t]; cbn [length] in *; [discriminate|].
    exact IH.
Qed.

Lemma split_pieces sep s :
  Forall (fun p => count_char sep p = 0) (PyStr.split sep s).
Proof.
  induction s as [|c s' IH]; cbn [PyStr.split].
  - repeat constructor.
  - destruct (Ascii.eqb c sep) eqn:E.
    + constructor; [reflexivity|exact IH].
    + destruct (PyStr.split sep s') as [|h t].
      * repeat constructor. cbn [count_char]. rewrite E. reflexivity.
      * inversion IH; subst. constructor; [|assumption].
        cbn [count_char]. rewrite E. assumption.
Qed.

Lemma split_concat sep s :
  String.concat (String sep "") (PyStr.split sep s) = s.
Proof.
  induction s as [|c s' IH]; [reflexivity|].
  cbn [PyStr.split].
  pose proof (split_nonempty sep s') as Hne.
  destruct (Ascii.eqb c sep) eqn:E.
  - apply Ascii.eqb_eq in E. subst c.
    destruct (PyStr.split sep s') as [|h t]; [contradiction|].
    change (String.concat (String sep "") ("" :: h :: t))
      with ("" ++ String sep "" ++ String.concat (String sep "") (h :: t))%string.
    rewrite IH. reflexivity.
  - destruct (PyStr.split sep s') as [|h t]; [contradiction|].
    destruct t as [|h' t'].
    + cbn [String.concat] in *. rewrite IH. reflexivity.
    + change (String.concat (String sep "") (String c h :: h' :: t'))
        with (String c (h ++ String sep "" ++ String.concat (String sep "") (h' :: t')))%string.
      change (String.concat (String sep "") (h :: h' :: t'))
        with (h ++ String sep "" ++ String.concat (String sep "") (h' :: t'))%string in IH.
      rewrite IH. reflexivity.
Qed.

Lemma prefix_app sub : forall s,
  prefix sub s = true <-> exists b, s = (sub ++ b)%string.
Proof.
  induction sub as [|a sub' IH]; intros s.
  - split; [intros _; exists s; reflexivity|]. intros _. destruct s; reflexivity.
  - destruct s as [|c s']; cbn [prefix].
    + split; [discriminate|]. intros [b H]. discriminate H.
    + destruct (ascii_dec a c) as [->|Hne].
      * rewrite IH. split; intros [b H]; exists b.
        -- cbn. rewrite <- H. reflexivity.
        -- cbn in H. inversion H. reflexivity.
      * split; [discriminate|]. intros [b H]. cbn in H. inversion H.
        subst. contradiction Hne. reflexivity.
Qed.

Lemma lstrip_no_lead s : starts_with_space (PyStr.lstrip s) = false.
Proof.
  induction s as [|c s' IH]; [reflexivity|]. cbn [PyStr.lstrip].
  destruct (PyStr.isspace c) eqn:E; [exact IH|]. cbn [starts_with_space]. exact E.
Qed.

Lemma rstrip_no_trail s : ends_with_space (PyStr.rstrip s) = false.
Proof.
  induction s as [|c s' IH]; [reflexivity|]. cbn [PyStr.rstrip].
  destruct (PyStr.rstrip s') as [|d r].
  - destruct (PyStr.isspace c) eqn:E; [reflexivity|]. cbn [ends_with_space]. exact E.
  - exact IH.
Qed.

Lemma rstrip_keeps_lead s :
  starts_with_space s = false -> starts_with_space (PyStr.rstrip s) = false.
Proof.
  destruct s as [|c s']; [reflexivity|]. cbn [starts_with_space PyStr.rstrip].
  intros E. destruct (PyStr.rstrip s'); [rewrite E|]; cbn [starts_with_space]; exact E.
Qed.

Lemma lstrip_id s : starts_with_space s = false -> PyStr.lstrip s = s.
Proof.
  destruct s as [|c s']; [reflexivity|]. cbn [starts_with_space PyStr.lstrip].
  intros ->. reflexivity.
Qed.

Lemma rstrip_id s : ends_with_space s = false -> PyStr.rstrip s = s.
Proof.
  induction s as [|c s' IH]; [reflexivity|]. intros H.
  cbn [PyStr.rstrip]. destruct s' as [|d s''].
  - cbn [PyStr.rstrip]. cbn [ends_with_space] in H. rewrite H. reflexivity.
  - rewrite IH by exact H. reflexivity.
Qed.

Lemma strip_clean s :
  starts_with_space (PyStr.strip s) = false /\
  ends_with_space (PyStr.strip s) = false /\
  PyStr.strip (PyStr.strip s) = PyStr.strip s.
Proof.
  assert (H1 : starts_with_space (PyStr.strip s) = false)
    by apply rstrip_keeps_lead, lstrip_no_lead.
  assert (H2 : ends_with_space (PyStr.strip s) = false)
    by apply rstrip_no_trail.
  repeat split; try assumption.
  unfold PyStr.strip at 1. rewrite (lstrip_id _ H1). apply rstrip_id, H2.
Qed.

Lemma strip_all_space s : all_space s = true -> PyStr.strip s = "".
Proof.
  unfold PyStr.strip. intros H.
  assert (E : PyStr.lstrip s = "").
  { induction s as [|c s' IH]; [reflexivity|]. cbn [all_space] in H.
    apply andb_true_iff in H. destruct H as [Hc Hs].
    cbn [PyStr.lstrip]. rewrite Hc. apply IH, Hs. }
  rewrite E. reflexivity.
Qed.

(** X11: a line is accepted by the two-name unpacking of
    [l.split(' ')] exactly when it holds one single space. *)
Theorem version_line_one_space l :
  two_tokens l <-> count_char " " l = 1.
Proof.
  unfold two_tokens. rewrite split_length. split; intros H; lia.
Qed.

(** X12: when a line splits into the two tokens [x] and [v], the line
    is [x], one space and [v], and neither token holds a space. *)
Theorem version_line_tokens l x v :
  PyStr.split " " l = [x; v] ->
  l = (x ++ " " ++ v)%string /\ count_char " " x = 0 /\ count_char " " v = 0.
Proof.
  intros H.
  pose proof (split_concat " " l) as Hc.
  pose proof (split_pieces " " l) as Hp.
  rewrite H in Hc, Hp. split.
  - symmetry. exact Hc.
  - inversion Hp as [|? ? Hx Hr]; subst. inversion Hr; subst. auto.
Qed.

Lemma version_line_tokens_witness :
  ("Version: 1.2.3" ++ nl)%string = ("Version:" ++ " " ++ ("1.2.3" ++ nl))%string /\
  count_char " " "Version:" = 0 /\ count_char " " ("1.2.3" ++ nl)%string = 0.
Proof.
  apply (version_line_tokens ("Version: 1.2.3" ++ nl)%string "Version:"
           ("1.2.3" ++ nl)%string).
  reflexivity.
Defined.

(** X16: the test ['Version' in l] holds exactly for the lines that
    have 'Version' somewhere inside: at the start ('Version: 1.0'), or
    behind other text ('Metadata-Version: 2.1'). *)
Theorem contains_iff sub s :
  PyStr.contains sub s = true <-> exists a b, s = (a ++ sub ++ b)%string.
Proof.
  split.
  - induction s as [|c s' IH]; cbn [PyStr.contains]; intros H;
      apply orb_true_iff in H; destruct H as [H|H].
    + apply prefix_app in H. destruct H as [b H]. exists "", b. exact H.
    + discriminate.
    + apply prefix_app in H. destruct H as [b H]. exists "", b. exact H.
    + destruct (IH H) as (a & b & ->). exists (String c a), b. reflexivity.
  - intros (a & b & ->). induction a as [|c a' IH].
    + cbn [append].
      assert (P : prefix sub (sub ++ b) = true) by (apply prefix_app; eauto).
      destruct (sub ++ b)%string; cbn [PyStr.contains]; rewrite P; reflexivity.
    + cbn [append PyStr.contains]. rewrite IH. apply orb_true_r.
Qed.

(** X17: [readlines] cuts the text and loses nothing: the lines put
    together again are the text, no line is empty, and a newline occurs
    in a line only as its last character. *)
Theorem readlines_partition t :
  fold_right append "" (PyStr.readlines t) = t /\
  Forall (fun l => l <> "" /\
                   (count_char PyStr.newline l = 0 \/
                    exists p, l = (p ++ nl)%string /\ count_char PyStr.newline p = 0))
         (PyStr.readlines t).
Proof.
  induction t as [|c t' [IH1 IH2]]; [split; [reflexivity|constructor]|].
  cbn [PyStr.readlines].
  destruct (Ascii.eqb c PyStr.newline) eqn:E.
  - apply Ascii.eqb_eq in E. subst c. split.
    + cbn [fold_right]. rewrite IH1. reflexivity.
    + constructor; [|exact IH2]. split; [discriminate|].
      right. exists "". split; reflexivity.
  - destruct (PyStr.readlines t') as [|h r].
    + cbn [fold_right] in *. subst t'. split; [reflexivity|].
      constructor; [|constructor]. split; [discriminate|].
      left. cbn [count_char]. rewrite E. reflexivity.
    + cbn [fold_right] in *. split; [cbn; rewrite IH1; reflexivity|].
      inversion IH2 as [|? ? [_ Hh] Hr]; subst.
      constructor; [|exact Hr]. split; [discriminate|].
      destruct Hh as [Hh|(p & -> & Hp)].
      * left. cbn [count_char]. rewrite E, Hh. reflexivity.
      * right. exists (String c p). split; [reflexivity|].
        cbn [count_char]. rewrite E, Hp. reflexivity.
Qed.

(** ** The loop over PKG-INFO, once more *)

Lemma pkg_info_loop_cons l rest s :
  pkg_info_loop (l :: rest) s =
  if PyStr.contains "Version" l then
    match PyStr.split " " l with
    | [_; v] => pkg_info_loop rest (mkState (sys_argv s) (Some v) (stdout s))
    | _ => Raises ValueError s
    end
  else pkg_info_loop rest s.
Proof.
  cbn [pkg_info_loop]. unfold bind at 1.
  destruct (PyStr.contains "Version" l); [|reflexivity].
  destruct (PyStr.split " " l) as [|x [|v [|z r]]]; reflexivity.
Qed.

Lemma pkg_info_loop_keeps lines : forall s,
  sys_argv (final (pkg_info_loop lines s)) = sys_argv s /\
  stdout (final (pkg_info_loop lines s)) = stdout s.
Proof.
  induction lines as [|l rest IH]; intros s; [split; reflexivity|].
  rewrite pkg_info_loop_cons.
  destruct (PyStr.contains "Version" l); [|apply IH].
  destruct (PyStr.split " " l) as [|x [|v [|z r]]]; try (split; reflexivity).
  apply (IH (mkState (sys_argv s) (Some v) (stdout s))).
Qed.

Lemma pkg_info_loop_app l1 : forall l2 s,
  pkg_info_loop (l1 ++ l2) s =
  match pkg_info_loop l1 s with
  | Returns _ s' => pkg_info_loop l2 s'
  | Raises e s' => Raises e s'
  end.
Proof.
  induction l1 as [|l rest IH]; intros l2 s; [reflexivity|].
  rewrite <- app_comm_cons, !pkg_info_loop_cons.
  destruct (PyStr.contains "Version" l); [|apply IH].
  destruct (PyStr.split " " l) as [|x [|v [|z r]]]; try reflexivity.
  apply IH.
Qed.

Lemma pkg_info_loop_matching lines : forall s,
  pkg_info_loop lines s = pkg_info_loop (matching lines) s.
Proof.
  induction lines as [|l rest IH]; intros s; [reflexivity|].
  unfold matching in *. cbn [filter]. rewrite pkg_info_loop_cons.
  destruct (PyStr.contains "Version" l) eqn:E; [|apply IH].
  rewrite pkg_info_loop_cons, E.
  destruct (PyStr.split " " l) as [|x [|v [|z r]]]; try reflexivity.
  apply IH.
Qed.

(** ** Edge cases of the command line *)

(** X1: started with fewer than two command-line arguments (a bare
    [python setup.py]), the script stops with an IndexError at its
    first test, before anything is printed or changed. *)
Theorem too_few_arguments w argv :
  length argv < 2 -> run w argv = Raises IndexError (initial argv).
Proof.
  intros H. rewrite run_eq, (resolve_short w argv H). reflexivity.
Qed.

Lemma too_few_arguments_witness :
  run world_sample ["setup.py"] = Raises IndexError (initial ["setup.py"]).
Proof. apply (too_few_arguments world_sample ["setup.py"]). apply le_n. Defined.

(** X2: the second [raise] (lines 18-19) is unreachable: once the
    guard of lines 14-15 has let a state through, the fallback block
    never raises the version exception from it. *)
Theorem second_raise_unreachable w s s' :
  sdist_guard s = Returns tt s' ->
  forall e s'', fallback_version w s' = Raises e s'' -> e <> Exception msg_version.
Proof.
  unfold sdist_guard, bind, get_argv, get_version.
  destruct (PyStr.mem "sdist" (sys_argv s) && negb (truthy (version s))) eqn:G;
    cbn [raise ret]; [discriminate|].
  intros H. inversion H; subst s'. clear H.
  intros e s''. unfold fallback_version, bind, get_argv, get_version.
  destruct (truthy (version s)) eqn:T; cbn [negb ret]; [discriminate|].
  cbn [negb] in G. rewrite andb_true_r in G. rewrite G.
  destruct (pkg_info w) as [| | |t]; cbn [isfile open_read raise ret print].
  - discriminate.
  - intros H. inversion H. discriminate.
  - intros H. inversion H. discriminate.
  - destruct (pkg_info_loop_frame (PyStr.readlines t) s)
      as [(s1 & Hl & _)|(s1 & Hl & _)]; rewrite Hl; intros H; inversion H.
    discriminate.
Qed.

Lemma second_raise_unreachable_witness :
  OSError <> Exception msg_version.
Proof.
  apply (second_raise_unreachable (mkWorld Unreadable NoFile [])
           (initial argv_install) (initial argv_install) eq_refl
           OSError (initial argv_install) eq_refl).
Defined.

(** X19: whatever the outcome, [sys.argv] is left either as it was or
    without a trailing [--version v] pair that came with 'sdist';
    nothing else is ever removed or added. *)
Theorem sys_argv_prefix w argv :
  sys_argv (final (run w argv)) = argv \/
  exists v, argv = sys_argv (final (run w argv)) ++ ["--version"; v] /\
            PyStr.mem "sdist" argv = true.
Proof.
  assert (R : sys_argv (final (run w argv)) =
              sys_argv (final (resolve_version w (initial argv)))).
  { rewrite run_eq.
    destruct (resolve_version w (initial argv)) as [[] s1|e s1]; [|reflexivity].
    destruct (readme w); reflexivity. }
  rewrite R. clear R.
  destruct (le_lt_dec 2 (length argv)) as [Hlen|Hlen].
  2:{ rewrite (resolve_short w argv Hlen). left. reflexivity. }
  destruct (two_last argv Hlen) as (pre & a & b & ->).
  destruct (String.eqb a "--version" && PyStr.mem "sdist" (pre ++ [a; b])) eqn:Hc.
  - apply andb_true_iff in Hc. destruct Hc as [Ha Hs].
    apply String.eqb_eq in Ha. subst a.
    rewrite (resolve_cmdline w pre b Hs). right. exists b.
    destruct b; cbn [final sys_argv]; auto.
  - rewrite (resolve_no_cmdline w pre a b Hc). left.
    destruct (PyStr.mem "sdist" (pre ++ [a; b])); [reflexivity|].
    destruct (pkg_info w) as [| | |t]; try reflexivity.
    apply (pkg_info_loop_keeps (PyStr.readlines t) (initial (pre ++ [a; b]))).
Qed.

(** X6: when the version comes from the command line and is not the
    word 'sdist' itself, the 'sdist' command is still in [sys.argv]
    when [setup] is called. *)
Theorem sdist_kept_in_argv w pre v c s :
  run w (pre ++ ["--version"; v]) = Returns c s ->
  PyStr.mem "sdist" (pre ++ ["--version"; v]) = true ->
  v <> "sdist" ->
  PyStr.mem "sdist" (sys_argv s) = true.
Proof.
  intros H Hs Hv. apply run_returns in H.
  destruct H as (s1 & t & Hres & _ & -> & _).
  rewrite (resolve_cmdline w pre v Hs) in Hres.
  destruct v; [discriminate|]. inversion Hres; subst s1.
  cbn [stripped sys_argv]. exact (sdist_in_prefix pre _ Hs Hv).
Qed.

Lemma sdist_kept_in_argv_witness :
  PyStr.mem "sdist"
    (sys_argv (mkState ["setup.py"; "sdist"] (Some "1.0.4") ["version: 1.0.4"])) = true.
Proof.
  apply (sdist_kept_in_argv world_sample ["setup.py"; "sdist"] " 1.0.4 " _ _ run_sdist).
  - reflexivity.
  - discriminate.
Defined.

(** X7: when the argument after a trailing '--version' is the word
    'sdist' and no other argument is, that word is taken as the
    version: the guard does not fire, and [setup] is entered with
    version 'sdist' and a [sys.argv] without any 'sdist' command. *)
Theorem version_named_sdist w pre t :
  PyStr.mem "sdist" pre = false ->
  readme w = Text t ->
  run w (pre ++ ["--version"; "sdist"]) =
  Returns (kwargs w (Some "sdist") t) (mkState pre (Some "sdist") ["version: sdist"]).
Proof.
  intros Hp Hr.
  assert (Hs : PyStr.mem "sdist" (pre ++ ["--version"; "sdist"]) = true).
  { rewrite mem_app. apply orb_true_iff. right. reflexivity. }
  rewrite run_eq, (resolve_cmdline w pre "sdist" Hs), Hr. reflexivity.
Qed.

Lemma version_named_sdist_witness :
  run world_sample (["setup.py"] ++ ["--version"; "sdist"]) =
  Returns (kwargs world_sample (Some "sdist") "# pymacaron-gcp")
          (mkState ["setup.py"] (Some "sdist") ["version: sdist"]).
Proof.
  apply (version_named_sdist world_sample ["setup.py"] "# pymacaron-gcp");
    reflexivity.
Defined.

(** ** When the script reaches [setup] *)

Lemma resolve_returns w argv s1 :
  resolve_version w (initial argv) = Returns tt s1 ->
  2 <= length argv /\
  ((exists pre v, argv = pre ++ ["--version"; v] /\
                  PyStr.mem "sdist" argv = true /\ v <> "" /\
                  s1 = mkState pre (Some v) []) \/
   (PyStr.mem "sdist" argv = false /\ pkg_info w = NoFile /\
    s1 = mkState argv None [msg_warning]) \/
   (PyStr.mem "sdist" argv = false /\
    exists t, pkg_info w = Text t /\
              Forall two_tokens (matching (PyStr.readlines t)) /\
              s1 = mkState argv
                     (match rev (matching (PyStr.readlines t)) with
                      | [] => None
                      | l :: _ => second_token l
                      end) [])).
Proof.
  intros H.
  destruct (le_lt_dec 2 (length argv)) as [Hlen|Hlen].
  2:{ rewrite (resolve_short w argv Hlen) in H. discriminate. }
  split; [exact Hlen|].
  destruct (two_last argv Hlen) as (pre & a & b & Hargv).
  destruct (String.eqb a "--version" && PyStr.mem "sdist" argv) eqn:Hc.
  - apply andb_true_iff in Hc. destruct Hc as [Ha Hs].
    apply String.eqb_eq in Ha. subst a.
    pose proof (resolve_cmdline w pre b) as R. rewrite <- Hargv in R.
    rewrite (R Hs) in H. left. exists pre, b.
    destruct b; [discriminate|]. inversion H.
    repeat split; auto. discriminate.
  - pose proof (resolve_no_cmdline w pre a b) as R. rewrite <- Hargv in R.
    rewrite (R Hc) in H.
    destruct (PyStr.mem "sdist" argv) eqn:Hs; [discriminate|]. right.
    destruct (pkg_info w) as [| | |t] eqn:Hp; try discriminate.
    + left. inversion H. auto.
    + right. split; [reflexivity|]. exists t. split; [reflexivity|].
      destruct (Forall_Exists_dec two_tokens two_tokens_dec
                  (matching (PyStr.readlines t))) as [Hall|Hex].
      * split; [exact Hall|].
        rewrite (pkg_info_loop_ok _ (initial argv) Hall) in H.
        inversion H. reflexivity.
      * destruct (pkg_info_loop_bad _ (initial argv) Hex) as [s' Hs'].
        rewrite Hs' in H. discriminate.
Qed.

(** X3: the script reaches the call of [setup] exactly when it has at
    least two arguments, README.md is readable, and either a non-empty
    version follows a trailing '--version' with 'sdist' present, or
    'sdist' is absent and PKG-INFO is missing or is a readable file
    whose 'Version' lines all split in two. *)
Theorem reaches_setup_iff w argv :
  (exists c s, run w argv = Returns c s) <->
  (2 <= length argv /\ (exists t, readme w = Text t) /\
   ((exists pre v, argv = pre ++ ["--version"; v] /\
                   PyStr.mem "sdist" argv = true /\ v <> "") \/
    (PyStr.mem "sdist" argv = false /\
     (pkg_info w = NoFile \/
      exists t, pkg_info w = Text t /\
                Forall two_tokens (matching (PyStr.readlines t)))))).
Proof.
  split.
  - intros (c & s & H). apply run_returns in H.
    destruct H as (s1 & t & Hres & Hr & _ & _).
    apply resolve_returns in Hres. destruct Hres as [Hlen Hcases].
    split; [exact Hlen|]. split; [eauto|].
    destruct Hcases as [(pre & v & Ha & Hs & Hv & _)|[(Hs & Hp & _)|(Hs & t' & Hp & Hall & _)]].
    + left. eauto.
    + right. auto.
    + right. split; [exact Hs|]. right. eauto.
  - intros (Hlen & [t Hr] & Hcases). rewrite run_eq, Hr.
    destruct Hcases as [(pre & v & -> & Hs & Hv)|[Hs [Hp|(t' & Hp & Hall)]]].
    + rewrite (resolve_cmdline w pre v Hs).
      destruct v; [contradiction Hv; reflexivity|]. eauto.
    + rewrite (resolve_no_pkg_info w argv Hlen Hs Hp). eauto.
    + rewrite (resolve_pkg_info w argv t' Hlen Hs Hp Hall). eauto.
Qed.

(** X4: an invocation with 'sdist' among its arguments that reaches
    [setup] got its version from the command line: the arguments end in
    '--version v' with [v] non-empty, [setup] receives [v] stripped,
    and [sys.argv] is the command line without these two. *)
Theorem sdist_needs_cmdline_version w argv c s :
  run w argv = Returns c s ->
  PyStr.mem "sdist" argv = true ->
  exists pre v,
    argv = pre ++ ["--version"; v] /\ v <> "" /\
    kw_version c = Some (PyStr.strip v) /\ sys_argv s = pre.
Proof.
  intros H Hs. apply run_returns in H.
  destruct H as (s1 & t & Hres & _ & -> & ->).
  apply resolve_returns in Hres. destruct Hres as [_ Hcases].
  destruct Hcases as [(pre & v & Ha & _ & Hv & ->)|[(Hn & _)|(Hn & _)]];
    try congruence.
  exists pre, v. repeat split; auto.
Qed.

Lemma sdist_needs_cmdline_version_witness :
  exists pre v,
    argv_sdist = pre ++ ["--version"; v] /\ v <> "" /\
    kw_version (kwargs world_sample (Some "1.0.4") "# pymacaron-gcp")
      = Some (PyStr.strip v) /\
    sys_argv (mkState ["setup.py"; "sdist"] (Some "1.0.4") ["version: 1.0.4"]) = pre.
Proof.
  apply (sdist_needs_cmdline_version world_sample argv_sdist _ _ run_sdist).
  reflexivity.
Defined.

(** X5: with 'sdist' among the arguments PKG-INFO is never looked at:
    two worlds that agree on README.md and on [glob("bin/*")] give the
    same outcome, whatever their PKG-INFO. *)
Theorem sdist_ignores_pkg_info w w' argv :
  PyStr.mem "sdist" argv = true ->
  readme w = readme w' -> bin_glob w = bin_glob w' ->
  run w argv = run w' argv.
Proof.
  intros Hs Hr Hb.
  assert (R : resolve_version w (initial argv) = resolve_version w' (initial argv)).
  { destruct (le_lt_dec 2 (length argv)) as [Hlen|Hlen].
    2:{ rewrite !resolve_short by exact Hlen. reflexivity. }
    destruct (two_last argv Hlen) as (pre & a & b & ->).
    destruct (String.eqb a "--version" && PyStr.mem "sdist" (pre ++ [a; b])) eqn:Hc.
    - apply andb_true_iff in Hc. destruct Hc as [Ha _].
      apply String.eqb_eq in Ha. subst a.
      rewrite !resolve_cmdline by exact Hs. reflexivity.
    - rewrite !resolve_no_cmdline by exact Hc. rewrite Hs. reflexivity. }
  rewrite !run_eq, R, Hr. unfold kwargs. rewrite Hb. reflexivity.
Qed.

Lemma sdist_ignores_pkg_info_witness :
  run world_sample argv_sdist =
  run (mkWorld Unreadable (Text "# pymacaron-gcp") ["bin/deploy"]) argv_sdist.
Proof.
  apply (sdist_ignores_pkg_info world_sample
           (mkWorld Unreadable (Text "# pymacaron-gcp") ["bin/deploy"]) argv_sdist);
    reflexivity.
Defined.

(** X8: a run that reaches [setup] has printed the line 'version: ...'
    with the version it passes, and nothing else, except when 'sdist'
    is absent and there is no PKG-INFO file: then the warning comes
    first and the line reads 'version: None'. *)
Theorem printed_output w argv c s :
  run w argv = Returns c s ->
  (stdout s = [("version: " ++ str_of (kw_version c))%string] /\
   ~ (PyStr.mem "sdist" argv = false /\ pkg_info w = NoFile)) \/
  (stdout s = [msg_warning; "version: None"] /\
   PyStr.mem "sdist" argv = false /\ pkg_info w = NoFile /\ kw_version c = None).
Proof.
  intros H. apply run_returns in H.
  destruct H as (s1 & t & Hres & _ & -> & ->).
  apply resolve_returns in Hres. destruct Hres as [_ Hcases].
  cbn [kwargs kw_version stripped stdout].
  destruct Hcases as [(pre & v & Ha & Hs & Hv & ->)|[(Hs & Hp & ->)|(Hs & t' & Hp & Hall & ->)]].
  - left. split; [reflexivity|]. intros [Hn _]. congruence.
  - right. repeat split; assumption.
  - left. split; [reflexivity|]. intros [_ Hn]. congruence.
Qed.

Lemma printed_output_witness :
  (stdout (mkState argv_install (Some "1.2.3") ["version: 1.2.3"]) =
     [("version: " ++ str_of (kw_version (kwargs world_sample (Some "1.2.3") "# pymacaron-gcp")))%string] /\
   ~ (PyStr.mem "sdist" argv_install = false /\ pkg_info world_sample = NoFile)) \/
  (stdout (mkState argv_install (Some "1.2.3") ["version: 1.2.3"]) =
     [msg_warning; "version: None"] /\
   PyStr.mem "sdist" argv_install = false /\ pkg_info world_sample = NoFile /\
   kw_version (kwargs world_sample (Some "1.2.3") "# pymacaron-gcp") = None).
Proof.
  apply (printed_output world_sample argv_install _ _ run_install).
Defined.

(** X18: with a readable README.md, a run that fails has printed
    nothing: every failure then happens before the first [print]. *)
Theorem failure_prints_nothing w argv t e s :
  readme w = Text t -> run w argv = Raises e s -> stdout s = [].
Proof.
  intros Hr H. rewrite run_eq, Hr in H.
  destruct (resolve_version w (initial argv)) as [[] s1|e1 s1] eqn:R; [discriminate|].
  inversion H; subst e1 s1. clear H.
  destruct (le_lt_dec 2 (length argv)) as [Hlen|Hlen].
  2:{ rewrite (resolve_short w argv Hlen) in R. inversion R. reflexivity. }
  destruct (two_last argv Hlen) as (pre & a & b & ->).
  destruct (String.eqb a "--version" && PyStr.mem "sdist" (pre ++ [a; b])) eqn:Hc.
  - apply andb_true_iff in Hc. destruct Hc as [Ha Hs].
    apply String.eqb_eq in Ha. subst a.
    rewrite (resolve_cmdline w pre b Hs) in R.
    destruct b; inversion R. reflexivity.
  - rewrite (resolve_no_cmdline w pre a b Hc) in R.
    destruct (PyStr.mem "sdist" (pre ++ [a; b])); [inversion R; reflexivity|].
    destruct (pkg_info w) as [| | |t']; inversion R; try reflexivity.
    pose proof (pkg_info_loop_keeps (PyStr.readlines t') (initial (pre ++ [a; b])))
      as [_ K].
    rewrite R in K. exact K.
Qed.

Lemma failure_prints_nothing_witness :
  stdout (initial ["setup.py"; "sdist"]) = [].
Proof.
  apply (failure_prints_nothing world_sample ["setup.py"; "sdist"]
           "# pymacaron-gcp" (Exception msg_version) _ eq_refl eq_refl).
Defined.

Lemma reaches_setup_iff_witness :
  exists c s, run world_sample argv_install = Returns c s.
Proof.
  apply (proj2 (reaches_setup_iff world_sample argv_install)).
  split; [apply le_n|]. split; [exists "# pymacaron-gcp"; reflexivity|].
  right. split; [reflexivity|]. right. exists pkg_info_sample.
  split; [reflexivity|]. repeat constructor.
Defined.

(** ** The version that [setup] receives *)

(** X9: a version passed to [setup] never starts or ends with white
    space, and stripping it again changes nothing. *)
Theorem setup_version_clean w argv c s v :
  run w argv = Returns c s -> kw_version c = Some v ->
  starts_with_space v = false /\ ends_with_space v = false /\ PyStr.strip v = v.
Proof.
  intros H Hv. apply run_returns in H.
  destruct H as (s1 & t & _ & _ & _ & ->). cbn [kwargs kw_version] in Hv.
  destruct (version s1) as [v0|]; [|discriminate].
  cbn [option_map] in Hv. inversion Hv. apply strip_clean.
Qed.

Lemma setup_version_clean_witness :
  starts_with_space "1.0.4" = false /\ ends_with_space "1.0.4" = false /\
  PyStr.strip "1.0.4" = "1.0.4".
Proof.
  apply (setup_version_clean world_sample argv_sdist _ _ "1.0.4" run_sdist).
  reflexivity.
Defined.

(** X10: the guard of lines 14-15 tests the version before it is
    stripped: a '--version' value that is not empty but all white space
    passes it, and [setup] is called with the empty string as version. *)
Theorem blank_version_passes_guard w pre v t :
  v <> "" -> all_space v = true ->
  PyStr.mem "sdist" (pre ++ ["--version"; v]) = true ->
  readme w = Text t ->
  run w (pre ++ ["--version"; v]) =
  Returns (kwargs w (Some "") t) (mkState pre (Some "") ["version: "]).
Proof.
  intros Hv Ha Hs Hr.
  rewrite run_eq, (resolve_cmdline w pre v Hs), Hr.
  destruct v as [|c v']; [contradiction Hv; reflexivity|].
  unfold stripped. cbn [sys_argv version stdout option_map str_of app].
  rewrite (strip_all_space _ Ha). reflexivity.
Qed.

Lemma blank_version_passes_guard_witness :
  run world_sample (["setup.py"; "sdist"] ++ ["--version"; "  "]) =
  Returns (kwargs world_sample (Some "") "# pymacaron-gcp")
          (mkState ["setup.py"; "sdist"] (Some "") ["version: "]).
Proof.
  apply (blank_version_passes_guard world_sample ["setup.py"; "sdist"] "  "
           "# pymacaron-gcp"); try reflexivity.
  discriminate.
Defined.

(** X13: only the lines of PKG-INFO that contain 'Version' matter: two
    PKG-INFO texts with the same such lines, in the same order, lead to
    the same outcome. *)
Theorem only_version_lines_matter w w' argv t t' :
  pkg_info w = Text t -> pkg_info w' = Text t' ->
  matching (PyStr.readlines t) = matching (PyStr.readlines t') ->
  readme w = readme w' -> bin_glob w = bin_glob w' ->
  run w argv = run w' argv.
Proof.
  intros Hp Hp' Hm Hr Hb.
  assert (R : resolve_version w (initial argv) = resolve_version w' (initial argv)).
  { destruct (le_lt_dec 2 (length argv)) as [Hlen|Hlen].
    2:{ rewrite !resolve_short by exact Hlen. reflexivity. }
    destruct (two_last argv Hlen) as (pre & a & b & ->).
    destruct (String.eqb a "--version" && PyStr.mem "sdist" (pre ++ [a; b])) eqn:Hc.
    - apply andb_true_iff in Hc. destruct Hc as [Ha Hs].
      apply String.eqb_eq in Ha. subst a.
      rewrite !resolve_cmdline by exact Hs. reflexivity.
    - rewrite !resolve_no_cmdline by exact Hc. rewrite Hp, Hp'.
      destruct (PyStr.mem "sdist" (pre ++ [a; b])); [reflexivity|].
      rewrite (pkg_info_loop_matching (PyStr.readlines t)),
              (pkg_info_loop_matching (PyStr.readlines t')), Hm.
      reflexivity. }
  rewrite !run_eq, R, Hr. unfold kwargs. rewrite Hb. reflexivity.
Qed.

Lemma only_version_lines_matter_witness :
  run world_sample argv_install =
  run (mkWorld (Text ("Metadata-Version: 2.1" ++ nl ++ "Version: 1.2.3" ++ nl)%string)
               (Text "# pymacaron-gcp") ["bin/deploy"]) argv_install.
Proof.
  apply (only_version_lines_matter world_sample
           (mkWorld (Text ("Metadata-Version: 2.1" ++ nl ++ "Version: 1.2.3" ++ nl)%string)
                    (Text "# pymacaron-gcp") ["bin/deploy"])
           argv_install pkg_info_sample
           ("Metadata-Version: 2.1" ++ nl ++ "Version: 1.2.3" ++ nl)%string);
    reflexivity.
Defined.

(** X15: the loop stops at the first line that contains 'Version' and
    does not split in two: the script fails there with a ValueError,
    [version] holds what the lines before it had set, and nothing has
    been printed. *)
Theorem first_bad_version_line w argv t good bad rest :
  2 <= length argv -> PyStr.mem "sdist" argv = false ->
  pkg_info w = Text t ->
  PyStr.readlines t = good ++ bad :: rest ->
  Forall two_tokens (matching good) ->
  PyStr.contains "Version" bad = true -> ~ two_tokens bad ->
  run w argv =
  Raises ValueError
         (mkState argv
                  (match rev (matching good) with
                   | [] => None
                   | l :: _ => second_token l
                   end) []).
Proof.
  intros Hlen Hs Hp Hl Hgood Hc Hbad.
  destruct (two_last argv Hlen) as (pre & a & b & ->).
  rewrite run_eq, resolve_no_cmdline by (rewrite Hs; apply andb_false_r).
  rewrite Hs, Hp, Hl, pkg_info_loop_app.
  rewrite (pkg_info_loop_ok good (initial (pre ++ [a; b])) Hgood).
  rewrite pkg_info_loop_cons, Hc. unfold two_tokens in Hbad.
  destruct (PyStr.split " " bad) as [|x [|v [|z r]]]; try reflexivity.
  contradiction Hbad. reflexivity.
Qed.

Lemma first_bad_version_line_witness :
  run (mkWorld (Text ("Version: 1.2.3" ++ nl ++ "Summary: Version two" ++ nl)%string)
               (Text "# pymacaron-gcp") [])
      argv_install =
  Raises ValueError (mkState argv_install (Some ("1.2.3" ++ nl)%string) []).
Proof.
  apply (first_bad_version_line
           (mkWorld (Text ("Version: 1.2.3" ++ nl ++ "Summary: Version two" ++ nl)%string)
                    (Text "# pymacaron-gcp") [])
           argv_install
           ("Version: 1.2.3" ++ nl ++ "Summary: Version two" ++ nl)%string
           [("Version: 1.2.3" ++ nl)%string]
           ("Summary: Version two" ++ nl)%string []
           (le_n 2) eq_refl eq_refl eq_refl).
  - repeat constructor.
  - reflexivity.
  - discriminate.
Defined.

(** ** The remaining keyword arguments *)

(** X14: besides the fields of C3, every run that reaches [setup]
    passes the same url, author, e-mail address, description, test
    requirements, test suite, zip_safe and platforms, and as scripts
    exactly what [glob("bin/*")] returned. *)
Theorem setup_other_fields w argv c s :
  run w argv = Returns c s ->
  kw_url c = "https://github.com/pymacaron/pymacaron-gcp" /\
  kw_author c = "Erwan Lemonnier" /\
  kw_author_email c = "erwan@lemonnier.se" /\
  kw_description c =
    "PyMacaron deployment pipelines towards Google Kubernetes Engine (GKE) and Cloud Run (GCR)" /\
  kw_tests_require c = ["nose"; "mock"; "pep8"] /\
  kw_test_suite c = "nose.collector" /\
  kw_scripts c = bin_glob w /\
  kw_zip_safe c = false /\
  kw_platforms c = "any".
Proof.
  intros H. apply run_returns in H.
  destruct H as (s1 & t & _ & _ & _ & ->). repeat split.
Qed.

Lemma setup_other_fields_witness :
  kw_scripts (kwargs world_sample (Some "1.2.3") "# pymacaron-gcp") = ["bin/deploy"].
Proof.
  apply (setup_other_fields world_sample argv_install _ _ run_install).
Defined.

(** ** Reading a version back from PKG-INFO *)

Lemma count_char_app c s1 s2 :
  count_char c (s1 ++ s2)%string = count_char c s1 + count_char c s2.
Proof.
  induction s1 as [|a s1' IH]; [reflexivity|].
  cbn [append count_char]. rewrite IH. lia.
Qed.

Lemma split_none sep y : count_char sep y = 0 -> PyStr.split sep y = [y].
Proof.
  induction y as [|c y' IH]; [reflexivity|]. cbn [count_char PyStr.split].
  destruct (Ascii.eqb c sep); [discriminate|]. cbn [Nat.add].
  intros H. rewrite (IH H). reflexivity.
Qed.

Lemma split_one sep x y :
  count_char sep x = 0 -> count_char sep y = 0 ->
  PyStr.split sep (x ++ String sep y) = [x; y].
Proof.
  intros Hx Hy. induction x as [|c x' IH].
  - cbn [append PyStr.split]. rewrite Ascii.eqb_refl, (split_none sep y Hy).
    reflexivity.
  - cbn [append PyStr.split count_char] in *.
    destruct (Ascii.eqb c sep); [discriminate|]. cbn [Nat.add] in Hx.
    rewrite (IH Hx). reflexivity.
Qed.

Lemma rstrip_newline x : PyStr.rstrip (x ++ nl) = PyStr.rstrip x.
Proof.
  induction x as [|c x' IH]; [reflexivity|].
  cbn [append PyStr.rstrip]. rewrite IH. reflexivity.
Qed.

Lemma strip_newline v : PyStr.strip (v ++ nl) = PyStr.strip v.
Proof.
  unfold PyStr.strip. induction v as [|c v' IH]; [reflexivity|].
  cbn [append PyStr.lstrip]. destruct (PyStr.isspace c); [exact IH|].
  apply (rstrip_newline (String c v')).
Qed.

Lemma two_tokens_second l : two_tokens l -> second_token l <> None.
Proof.
  intros H. destruct (two_tokens_inv l H) as (x & v & E).
  unfold second_token. rewrite E. discriminate.
Qed.

(** X20: [setup] receives no version ([None]) exactly when 'sdist' is
    absent and PKG-INFO is missing or has no line containing
    'Version'. *)
Theorem no_version_iff w argv c s :
  run w argv = Returns c s ->
  (kw_version c = None <->
   PyStr.mem "sdist" argv = false /\
   (pkg_info w = NoFile \/
    exists t, pkg_info w = Text t /\ matching (PyStr.readlines t) = [])).
Proof.
  intros H. apply run_returns in H.
  destruct H as (s1 & t & Hres & _ & _ & ->). cbn [kwargs kw_version].
  apply resolve_returns in Hres. destruct Hres as [_ Hcases].
  destruct Hcases as [(pre & v & Ha & Hs & Hv & ->)|[(Hs & Hp & ->)|(Hs & t' & Hp & Hall & ->)]];
    cbn [version option_map].
  - split; [discriminate|]. intros [Hn _]. congruence.
  - split; auto.
  - split.
    + intros Hnone. split; [exact Hs|]. right. exists t'. split; [exact Hp|].
      destruct (matching (PyStr.readlines t')) as [|l0 ls] eqn:Em using rev_ind;
        [reflexivity|].
      exfalso. rewrite rev_unit in Hnone.
      apply Forall_app in Hall. destruct Hall as [_ Hl]. inversion Hl; subst.
      destruct (second_token l0) eqn:E2; [discriminate|].
      eapply two_tokens_second; eassumption.
    + intros [_ [Hn|(t2 & Hp2 & Hm)]]; [congruence|].
      rewrite Hp in Hp2. inversion Hp2; subst t2. rewrite Hm. reflexivity.
Qed.

Lemma no_version_iff_witness :
  kw_version (kwargs world_no_version_line None "# pymacaron-gcp") = None <->
  PyStr.mem "sdist" argv_install = false /\
  (pkg_info world_no_version_line = NoFile \/
   exists t, pkg_info world_no_version_line = Text t /\
             matching (PyStr.readlines t) = []).
Proof.
  apply (no_version_iff world_no_version_line argv_install _
           (mkState argv_install None ["version: None"])).
  reflexivity.
Defined.

(** X21: a PKG-INFO written in the usual form is read back: when
    'sdist' is absent and the last line containing 'Version' is
    'Version: v' with no space inside [v], [setup] receives [v]
    stripped. *)
Theorem version_line_read_back w argv t ms v c s :
  run w argv = Returns c s ->
  PyStr.mem "sdist" argv = false ->
  pkg_info w = Text t ->
  matching (PyStr.readlines t) = ms ++ [("Version: " ++ v ++ nl)%string] ->
  count_char " " v = 0 ->
  kw_version c = Some (PyStr.strip v).
Proof.
  intros H Hs Hp Hm Hv. apply run_returns in H.
  destruct H as (s1 & t0 & Hres & _ & _ & ->). cbn [kwargs kw_version].
  apply resolve_returns in Hres. destruct Hres as [_ Hcases].
  destruct Hcases as [(pre & v' & Ha & Hs' & _)|[(_ & Hp' & _)|(_ & t' & Hp' & Hall & ->)]];
    try congruence.
  rewrite Hp in Hp'. inversion Hp'; subst t'.
  cbn [version]. rewrite Hm, rev_unit. unfold second_token.
  change ("Version: " ++ v ++ nl)%string
    with ("Version:" ++ String " " (v ++ nl))%string.
  rewrite split_one.
  - cbn [nth_error option_map]. rewrite strip_newline. reflexivity.
  - reflexivity.
  - rewrite count_char_app, Hv. reflexivity.
Qed.

Lemma version_line_read_back_witness :
  kw_version (kwargs world_sample (Some "1.2.3") "# pymacaron-gcp") =
  Some (PyStr.strip "1.2.3").
Proof.
  apply (version_line_read_back world_sample argv_install pkg_info_sample
           [("Metadata-Version: 2.1" ++ nl)%string] "1.2.3" _ _ run_install);
    reflexivity.
Defined.

Lemma version_line_one_space_witness :
  two_tokens ("Version: 1.2.3" ++ nl)%string.
Proof.
  apply (proj2 (version_line_one_space ("Version: 1.2.3" ++ nl)%string)).
  reflexivity.
Defined.

Lemma contains_iff_witness :
  PyStr.contains "Version" "Metadata-Version: 2.1" = true.
Proof.
  apply (proj2 (contains_iff "Version" "Metadata-Version: 2.1")).
  exists "Metadata-", ": 2.1". reflexivity.
Defined.
